(** * Code-review agent: the section extractor, the document fetcher and the
    request handlers of [src/function.py], embedded as Rocq functions.

    Python strings are sequences of Unicode code points, dictionaries keep
    their insertion order, and a call that may raise returns in an error
    monad.  The HTML parser, the HTTP client, the object store and the model
    service are collaborators of the program: they appear as parameters, each
    of which returns or raises. *)

From Stdlib Require Import String Ascii List NArith ZArith Bool Lia.
From Stdlib Require DecimalString.
Import ListNotations.

Set Warnings "-register-all".

(** ** Python strings *)

Definition char := N.
Definition str := list char.

Definition py (s : string) : str := map N_of_ascii (list_ascii_of_string s).
Arguments py s%_string.

Definition str_eq_dec : forall a b : str, {a = b} + {a <> b} :=
  list_eq_dec N.eq_dec.

Definition str_eqb (a b : str) : bool := if str_eq_dec a b then true else false.

(** [x in xs] on a list of strings. *)
Definition member (x : str) (xs : list str) : bool := existsb (str_eqb x) xs.

(** The code points [str.isspace] accepts, which are those [str.strip]
    removes when it is called without argument. *)
Definition isspace (c : char) : bool :=
  ((9 <=? c) && (c <=? 13) || (28 <=? c) && (c <=? 32)
   || (c =? 133) || (c =? 160) || (c =? 5760)
   || (8192 <=? c) && (c <=? 8202)
   || (c =? 8232) || (c =? 8233) || (c =? 8239) || (c =? 8287)
   || (c =? 12288))%N.

Fixpoint lstrip (s : str) : str :=
  match s with
  | c :: s' => if isspace c then lstrip s' else s
  | [] => []
  end.

Definition rstrip (s : str) : str := rev (lstrip (rev s)).

Definition strip (s : str) : str := rstrip (lstrip s).

(** [sep.join(parts)] *)
Fixpoint join (sep : str) (parts : list str) : str :=
  match parts with
  | [] => []
  | [x] => x
  | x :: rest => x ++ sep ++ join sep rest
  end.

(** Truth value of a string: the empty string is false. *)
Definition nonempty (s : str) : bool :=
  match s with [] => false | _ :: _ => true end.

(** ** Python dictionaries with string keys

    A [dict] keeps its keys in insertion order; an assignment to a key that is
    already there replaces the value and leaves the key where it was. *)

Section Dict.
Variable V : Type.

Definition dict := list (str * V).

Fixpoint dict_set (d : dict) (k : str) (v : V) : dict :=
  match d with
  | [] => [(k, v)]
  | (k', v') :: d' =>
      if str_eq_dec k' k then (k', v) :: d' else (k', v') :: dict_set d' k v
  end.

Fixpoint dict_get (d : dict) (k : str) : option V :=
  match d with
  | [] => None
  | (k', v') :: d' => if str_eq_dec k' k then Some v' else dict_get d' k
  end.

Definition keys (d : dict) : list str := map fst d.
End Dict.

Arguments dict_set {V} d k v.
Arguments dict_get {V} d k.
Arguments keys {V} d.

(** ** The section extractor *)

(** What the extractor reads of an element: its name and the text
    [get_text()] returns for it, which includes the text of the elements
    nested in it. *)
Record Tag := { name : str; get_text : str }.

(** A parsed document, as the sequence of its elements in document order. *)
Definition soup := list Tag.

(** [soup.find_all(names)]: the elements with one of the names, in document
    order. *)
Definition find_all (names : list str) (s : soup) : list Tag :=
  filter (fun t => member (name t) names) s.

Definition header_names : list str :=
  [py "h1"; py "h2"; py "h3"; py "h4"; py "h5"].

Definition recognised_names : list str := header_names ++ [py "p"].

(** The three variables of [extract_headers_and_content]. *)
Record scan_state := {
  content_dict : dict str;
  current_header : option str;
  current_content : list str
}.

Definition scan_init : scan_state :=
  {| content_dict := []; current_header := None; current_content := [] |}.

(** [if current_header:] holds for a header that was seen and whose text is
    not empty. *)
Definition truthy (h : option str) : bool :=
  match h with
  | Some s => nonempty s
  | None => false
  end.

(** [if current_header: content_dict[current_header] = " ".join(current_content).strip()] *)
Definition commit (st : scan_state) : dict str :=
  match current_header st with
  | Some h =>
      if nonempty h
      then dict_set (content_dict st) h (strip (join (py " ") (current_content st)))
      else content_dict st
  | None => content_dict st
  end.

(** The body of the loop. *)
Definition visit (st : scan_state) (tag : Tag) : scan_state :=
  if member (name tag) header_names then
    {| content_dict := commit st;
       current_header := Some (strip (get_text tag));
       current_content := [] |}
  else if str_eqb (name tag) (py "p") && truthy (current_header st) then
    {| content_dict := content_dict st;
       current_header := current_header st;
       current_content := current_content st ++ [strip (get_text tag)] |}
  else st.

Definition scan (st : scan_state) (tags : list Tag) : scan_state :=
  fold_left visit tags st.

(** Lines 85 to 102: the loop over the recognised elements, then the final
    commit. *)
Definition extract_soup (s : soup) : dict str :=
  commit (scan scan_init (find_all recognised_names s)).

(** The classes of [Exception] the program meets; [External] stands for an
    exception class of a collaborator (a markup the parser rejects, a network
    fault, a storage error, a decoding error). *)
Inductive exn :=
| AttributeError
| KeyError
| IndexError
| TypeError
| ValueError
| External (class_name : str).

Inductive result (A : Type) :=
| Ok (a : A)
| Raise (e : exn).

Arguments Ok {A} a.
Arguments Raise {A} e.

Definition bind {A B} (r : result A) (k : A -> result B) : result B :=
  match r with
  | Ok a => k a
  | Raise e => Raise e
  end.

Notation "x <- r ;; k" := (bind r (fun x => k))
  (at level 61, r at next level, right associativity).
Notation "' p <- r ;; k" := (bind r (fun x => match x with p => k end))
  (at level 61, p pattern, r at next level, right associativity).

Section Extractor.
(** [BeautifulSoup(content, "html.parser")]: the parser returns the parsed
    document or raises; the extractor has no handler around the call. *)
Variable BeautifulSoup : str -> result soup.

Definition extract_headers_and_content (content : str) : result (dict str) :=
  parsed <- BeautifulSoup content ;;
  Ok (extract_soup parsed).
End Extractor.

(** Elements of the examples. *)
Definition elem (n text : string) : Tag := {| name := py n; get_text := py text |}.

(** The elements of
    [<h2>Style</h2><p>Use semicolons.</p><h2>Style</h2><p>Use 2-space indent.</p>]. *)
Definition style_page : soup :=
  [elem "h2" "Style"; elem "p" "Use semicolons.";
   elem "h2" "Style"; elem "p" "Use 2-space indent."].

(** ** Python values and the calls that may raise *)

Inductive value :=
| VNone
| VBool (b : bool)
| VInt (z : Z)
| VFloat (mantissa exponent : Z)
| VStr (s : str)
| VList (items : list value)
| VTuple (items : list value)
| VDict (items : list (str * value)).

(** [obj.get(key, default)] *)
Definition get (obj : value) (key : str) (default : value) : result value :=
  match obj with
  | VDict items =>
      Ok (match dict_get items key with Some v => v | None => default end)
  | _ => Raise AttributeError
  end.

(** [obj[key]] with a string key. *)
Definition getitem (obj : value) (key : str) : result value :=
  match obj with
  | VDict items =>
      match dict_get items key with Some v => Ok v | None => Raise KeyError end
  | _ => Raise TypeError
  end.

(** [obj[i]] with an index that is not negative. *)
Definition getitem_int (obj : value) (i : nat) : result value :=
  match obj with
  | VList items | VTuple items =>
      match nth_error items i with Some v => Ok v | None => Raise IndexError end
  | VStr s =>
      match nth_error s i with Some c => Ok (VStr [c]) | None => Raise IndexError end
  | VDict _ => Raise KeyError
  | _ => Raise TypeError
  end.

(** [a, b = obj] *)
Definition unpack2 (obj : value) : result (value * value) :=
  match obj with
  | VTuple [a; b] | VList [a; b] => Ok (a, b)
  | VStr [a; b] => Ok (VStr [a], VStr [b])
  | VDict [(a, _); (b, _)] => Ok (VStr a, VStr b)
  | VTuple _ | VList _ | VStr _ | VDict _ => Raise ValueError
  | _ => Raise TypeError
  end.

(** [str(n)] of an integer. *)
Definition str_of_int (z : Z) : str :=
  py (DecimalString.NilZero.string_of_int (Z.to_int z)).

(** ** The collaborators *)

Record Response := {
  status_code : Z;
  text : str;
  json : result value
}.

(** The two prompt templates, which [substitute] renders. *)
Inductive template :=
| agent_backend_system_prompt_template
| agent_frontend_system_prompt_template.

Record Services := {
  (** [BeautifulSoup(content, "html.parser")] on a string, and on an object
      that is not a string; either may raise. *)
  BeautifulSoup : str -> result soup;
  BeautifulSoup_object : value -> result soup;
  (** [requests.get(url, auth=HTTPBasicAuth(email, api_token), headers=...)] *)
  requests_get : str -> value -> value -> result Response;
  (** [s3.get_object(Bucket=..., Key=...)["Body"].read().decode("utf-8")] *)
  s3_get_object : value -> value -> result str;
  (** [client.converse(modelId=..., messages=..., system=..., inferenceConfig=...)] *)
  converse : value -> value -> value -> value -> result value;
  (** [template.substitute(output_format=..., tech_choice_doc=...)] *)
  substitute : template -> str -> dict str -> result str;
  (** [float(x)] *)
  float : value -> result value;
  (** What an f-string writes for an object that is neither a string, an
      integer, a truth value nor [None]. *)
  repr : value -> str;
  (** The table of [model_information] and the environment. *)
  MODEL_IDS : value;
  CONFLUENCE_URL : value;
  EMAIL : value;
  CONFLUENCE_API_TOKEN : value;
  CODE_BUCKET : value
}.

Definition output_format : str := py "
APIs: 
1. Use ESM JavaScript, aiming for the latest stable node version: Pass 
2. If you can, use LLRT (Optional): Fail
...
Data Pipelines: 
1. Prefer Python, aiming for the latest stable python version: Pass
...
".

Section Program.
Variable w : Services.

(** [f"{v}"] *)
Definition format (v : value) : str :=
  match v with
  | VStr s => s
  | VNone => py "None"
  | VBool true => py "True"
  | VBool false => py "False"
  | VInt z => str_of_int z
  | _ => repr w v
  end.

Definition retrieve_code_file_from_s3 (file_key : value) : result str :=
  s3_get_object w (CODE_BUCKET w) file_key.

(** Lines 69 to 77: what the fetcher makes of the response. *)
Definition page_of_response (response : Response) : result value :=
  if (status_code response =? 200)%Z then
    data <- json response ;;
    page_title <- get data (py "title") VNone ;;
    body <- get data (py "body") (VDict []) ;;
    storage <- get body (py "storage") (VDict []) ;;
    page_content <- get storage (py "value") (VStr (py "No content found.")) ;;
    Ok (VTuple [page_title; page_content])
  else
    Ok (VStr (py "Error: " ++ str_of_int (status_code response)
              ++ py " - " ++ text response)).

(** [f"{confluence_url}/rest/api/content/{page_id}?expand=body.storage"] *)
Definition page_url (confluence_url page_id : value) : str :=
  format confluence_url ++ py "/rest/api/content/"
  ++ format page_id ++ py "?expand=body.storage".

Definition get_confluence_page_content
    (page_id confluence_url email api_token : value) : result value :=
  let url := page_url confluence_url page_id in
  response <- requests_get w url email api_token ;;
  page_of_response response.

(** [extract_headers_and_content] on the object the caller passes. *)
Definition extract_headers_and_content_of (content : value)
    : result (dict str) :=
  match content with
  | VStr s => extract_headers_and_content (BeautifulSoup w) s
  | _ => parsed <- BeautifulSoup_object w content ;; Ok (extract_soup parsed)
  end.

(** Temperature 0.2, written as 2e-1. *)
Definition inference_config : value :=
  VDict [(py "temperature", VFloat 2 (-1)); (py "maxTokens", VInt 4000);
         (py "topP", VInt 0)].

Definition invoke_bedrock (model_id messages system_prompt : value)
    : result (value * value) :=
  response <- converse w model_id messages system_prompt inference_config ;;
  usage <- getitem response (py "usage") ;;
  input_tokens <- (x <- getitem usage (py "inputTokens") ;; float w x) ;;
  usage <- getitem response (py "usage") ;;
  output_tokens <- (x <- getitem usage (py "outputTokens") ;; float w x) ;;
  usage <- getitem response (py "usage") ;;
  total_tokens <- (x <- getitem usage (py "totalTokens") ;; float w x) ;;
  metrics <- getitem response (py "metrics") ;;
  latency <- (x <- getitem metrics (py "latencyMs") ;; float w x) ;;
  let bedrock_metadata :=
    VDict [(py "input_tokens", input_tokens); (py "output_tokens", output_tokens);
           (py "total_tokens", total_tokens); (py "latency", latency)] in
  Ok (response, bedrock_metadata).

Definition format_message (role content : str) : value :=
  VList [VDict [(py "role", VStr role);
                (py "content", VList [VDict [(py "text", VStr content)]])]].

Definition format_prompt (prompt : str) : value :=
  VList [VDict [(py "text", VStr prompt)]].

(** [response["output"]["message"]["content"][0]["text"]] *)
Definition first_text (response : value) : result value :=
  output <- getitem response (py "output") ;;
  message <- getitem output (py "message") ;;
  content <- getitem message (py "content") ;;
  first <- getitem_int content 0 ;;
  getitem first (py "text").

Definition generate_output (model_id system_prompt messages : value)
    : result value :=
  ' (response, _) <- invoke_bedrock model_id messages system_prompt ;;
  first_text response.

Definition handle_code_review_request
    (page_id file_key : value) (system_prompt_template : template)
    : result value :=
  code_file <- retrieve_code_file_from_s3 file_key ;;
  fetched <- get_confluence_page_content
               page_id (CONFLUENCE_URL w) (EMAIL w) (CONFLUENCE_API_TOKEN w) ;;
  ' (title, content) <- unpack2 fetched ;;
  tech_choice_doc <- extract_headers_and_content_of content ;;
  system_prompt <- substitute w system_prompt_template output_format
                     tech_choice_doc ;;
  let formatted_message := format_message (py "user") code_file in
  let formatted_prompt := format_prompt system_prompt in
  nova <- getitem (MODEL_IDS w) (py "nova-micro") ;;
  model_id <- getitem nova (py "id") ;;
  generate_output model_id formatted_prompt formatted_message.

(** What an endpoint hands to the framework: the returned object, which is
    answered with status 200, or an [HTTPException]. *)
Inductive outcome :=
| Return (response : value)
| HTTPException (status : Z) (detail : str).

(** [req.json()] is the only thing the endpoints read of the request. *)
Definition Request := result value.

(** The [try] block of an endpoint. *)
Definition agent_body (req : Request) (t : template) : result value :=
  body <- req ;;
  page_id <- get body (py "page_id") VNone ;;
  file_key <- get body (py "file_key") VNone ;;
  handle_code_review_request page_id file_key t.

Definition backend_agent (req : Request) : outcome :=
  match agent_body req agent_backend_system_prompt_template with
  | Ok response => Return response
  | Raise e => HTTPException 500 (py "Something went wrong")
  end.

Definition frontend_agent (req : Request) : outcome :=
  match agent_body req agent_frontend_system_prompt_template with
  | Ok response => Return response
  | Raise e => HTTPException 500 (py "Something went wrong")
  end.
End Program.

(** The endpoint of a template. *)
Definition endpoint (w : Services) (t : template) : Request -> outcome :=
  match t with
  | agent_backend_system_prompt_template => backend_agent w
  | agent_frontend_system_prompt_template => frontend_agent w
  end.

(** The response of both endpoints to every failure. *)
Definition failure : outcome := HTTPException 500 (py "Something went wrong").

(** The status the framework answers with. *)
Definition http_status (o : outcome) : Z :=
  match o with
  | Return _ => 200
  | HTTPException status _ => status
  end.

(** ** Documents as sections

    The recognised elements of a document are some paragraphs, then sections:
    a header element and the paragraph elements up to the next header. *)

Definition is_header (t : Tag) : bool := member (name t) header_names.

Definition is_paragraph (t : Tag) : bool := str_eqb (name t) (py "p").

Definition section := (Tag * list Tag)%type.

Definition well_formed (s : section) : bool :=
  is_header (fst s) && forallb is_paragraph (snd s).

Definition elements (secs : list section) : list Tag :=
  flat_map (fun s => fst s :: snd s) secs.

(** The trimmed text of the header of a section. *)
Definition header_text (s : section) : str := strip (get_text (fst s)).

(** The trimmed texts of the paragraphs, joined with one space, trimmed. *)
Definition paragraphs_text (ps : list Tag) : str :=
  strip (join (py " ") (map (fun p => strip (get_text p)) ps)).

Definition section_text (s : section) : str := paragraphs_text (snd s).

Definition entry (s : section) : str * str := (header_text s, section_text s).

(** [d.update(entries)] *)
Definition dict_update {V} (d : dict V) (entries : list (str * V)) : dict V :=
  fold_left (fun d e => dict_set d (fst e) (snd e)) entries d.

(** What the loop records of a section once the section is over. *)
Definition record (d : dict str) (s : section) : dict str :=
  if nonempty (header_text s) then dict_set d (header_text s) (section_text s)
  else d.

(** The state of the loop when the elements of a section have been visited. *)
Definition after_section (st : scan_state) (s : section) : scan_state :=
  {| content_dict := commit st;
     current_header := Some (header_text s);
     current_content :=
       if nonempty (header_text s)
       then map (fun p => strip (get_text p)) (snd s)
       else [] |}.

(** A Section Map that has one key for each header text of [secs] and, under
    it, the text of the paragraphs of the section: the last section of that
    header text when the text repeats. *)
Definition maps_sections (secs : list section) (d : dict str) : Prop :=
  NoDup (keys d) /\
  (forall k, In k (keys d) <-> In k (map header_text secs)) /\
  length (keys d) <= length secs /\
  (NoDup (map header_text secs) -> d = map entry secs) /\
  (forall before s after,
      secs = before ++ s :: after ->
      ~ In (header_text s) (map header_text after) ->
      dict_get d (header_text s) = Some (section_text s)).

(** [k] is the header text of more than one section. *)
Definition repeated (k : str) (secs : list section) : Prop :=
  1 < count_occ str_eq_dec (map header_text secs) k.

(** The key [k] is there once, with the text of the last section of that
    header text. *)
Definition last_write_wins (secs : list section) (d : dict str) (k : str) : Prop :=
  count_occ str_eq_dec (keys d) k = 1 /\
  (forall before s after,
      secs = before ++ s :: after ->
      header_text s = k ->
      ~ In k (map header_text after) ->
      dict_get d k = Some (section_text s)).

(** Every header that has no paragraph of its own is a key with the empty
    string as its value. *)
Definition bare_headers_map_to_empty (secs : list section) (d : dict str) : Prop :=
  forall before h after,
    secs = before ++ (h, []) :: after ->
    dict_get d (strip (get_text h)) = Some [].

(** An element that is not a header with a text. *)
Definition untitled (t : Tag) : bool :=
  negb (is_header t) || negb (nonempty (strip (get_text t))).

Definition not_header (t : Tag) : bool := negb (is_header t).

(** A parser that answers with the given elements. *)
Definition parse_as (s : soup) : str -> result soup := fun _ => Ok s.

(** The elements of [<h1> </h1><p>a</p>], and its one section. *)
Definition blank_header_markup : str := py "<h1> </h1><p>a</p>".
Definition blank_header_page : soup := [elem "h1" " "; elem "p" "a"].
Definition blank_header_sections : list section :=
  [(elem "h1" " ", [elem "p" "a"])].

(** The elements of [<h2></h2><h2></h2>]. *)
Definition blank_twice_markup : str := py "<h2></h2><h2></h2>".
Definition blank_twice_page : soup := [elem "h2" ""; elem "h2" ""].
Definition blank_twice_sections : list section :=
  [(elem "h2" "", []); (elem "h2" "", [])].

(** The elements of [<h1></h1><h1>A</h1><h1>A</h1><p>x</p>]. *)
Definition bare_headers_markup : str := py "<h1></h1><h1>A</h1><h1>A</h1><p>x</p>".
Definition bare_headers_page : soup :=
  [elem "h1" ""; elem "h1" "A"; elem "h1" "A"; elem "p" "x"].
Definition bare_headers_sections : list section :=
  [(elem "h1" "", []); (elem "h1" "A", []); (elem "h1" "A", [elem "p" "x"])].

(** The sections of [style_page]. *)
Definition style_markup : str :=
  py "<h2>Style</h2><p>Use semicolons.</p><h2>Style</h2><p>Use 2-space indent.</p>".
Definition style_sections : list section :=
  [(elem "h2" "Style", [elem "p" "Use semicolons."]);
   (elem "h2" "Style", [elem "p" "Use 2-space indent."])].

(** ** The response of the wiki, as the specification reads it *)

(** The value at a path of keys, when every key of the path is there. *)
Fixpoint lookup_path (path : list str) (v : value) : option value :=
  match path with
  | [] => Some v
  | k :: rest =>
      match v with
      | VDict items =>
          match dict_get items k with
          | Some x => lookup_path rest x
          | None => None
          end
      | _ => None
      end
  end.

Definition dict_or_absent (o : option value) : bool :=
  match o with
  | Some (VDict _) | None => true
  | Some _ => false
  end.

(** The response is an object, and so are its [body] and the [storage] of
    the body when they are there. *)
Definition well_shaped (data : value) : bool :=
  dict_or_absent (Some data)
  && dict_or_absent (lookup_path [py "body"] data)
  && dict_or_absent (lookup_path [py "body"; py "storage"] data).

Definition or_default (o : option value) (default : value) : value :=
  match o with Some v => v | None => default end.

(** The request carries the two fields. *)
Definition request_fields (req : Request) (page_id file_key : value) : Prop :=
  exists body,
    req = Ok body /\
    get body (py "page_id") VNone = Ok page_id /\
    get body (py "file_key") VNone = Ok file_key.

(** ** A deployment for the examples: one wiki page, one stored file *)

(** A markup that [html.parser] rejects: on it [BeautifulSoup] raises
    [ParserRejectedMarkup]. *)
Definition rejected_markup : str := py "<![foo bar".

(** The parser of the examples: it knows the page of the examples, rejects
    [rejected_markup] as the library does, and finds no element elsewhere. *)
Definition demo_parser (content : str) : result soup :=
  if str_eqb content style_markup then Ok style_page
  else if str_eqb content rejected_markup
       then Raise (External (py "ParserRejectedMarkup"))
       else Ok [].

(** A page whose content the parser rejects. *)
Definition rejected_page : Response :=
  {| status_code := 200;
     text := [];
     json := Ok (VDict [(py "title", VStr (py "Broken"));
                        (py "body",
                         VDict [(py "storage",
                                 VDict [(py "value", VStr rejected_markup)])])]) |}.

Definition demo_page : Response :=
  {| status_code := 200;
     text := [];
     json := Ok (VDict [(py "title", VStr (py "Guidelines"));
                        (py "body",
                         VDict [(py "storage",
                                 VDict [(py "value", VStr style_markup)])])]) |}.

Definition demo_missing : Response :=
  {| status_code := 404;
     text := py "Not Found";
     json := Raise (External (py "JSONDecodeError")) |}.

(** A page without a body, and a page whose body is [null]. *)
Definition page_without_body : Response :=
  {| status_code := 200;
     text := [];
     json := Ok (VDict [(py "title", VStr (py "T"))]) |}.

Definition page_with_null_body : Response :=
  {| status_code := 200;
     text := [];
     json := Ok (VDict [(py "title", VStr (py "T")); (py "body", VNone)]) |}.

Definition demo_reply : value :=
  VDict [(py "output",
          VDict [(py "message",
                  VDict [(py "content",
                          VList [VDict [(py "text", VStr (py "APIs: 1. Pass"))]])])]);
         (py "usage",
          VDict [(py "inputTokens", VInt 10); (py "outputTokens", VInt 5);
                 (py "totalTokens", VInt 15)]);
         (py "metrics", VDict [(py "latencyMs", VInt 120)])].

Definition demo_services : Services :=
  {| BeautifulSoup := demo_parser;
     BeautifulSoup_object := fun _ => Raise TypeError;
     requests_get := fun url _ _ =>
       if str_eqb url (py "https://wiki/rest/api/content/42?expand=body.storage")
       then Ok demo_page
       else if str_eqb url
                 (py "https://wiki/rest/api/content/13?expand=body.storage")
            then Ok rejected_page
            else Ok demo_missing;
     s3_get_object := fun _ key =>
       match key with
       | VStr _ => Ok (py "console.log('x')")
       | _ => Raise (External (py "ParamValidationError"))
       end;
     converse := fun _ _ _ _ => Ok demo_reply;
     substitute := fun _ _ _ => Ok (py "prompt");
     float := fun v => Ok v;
     repr := fun _ => [];
     MODEL_IDS := VDict [(py "nova-micro",
                          VDict [(py "id", VStr (py "amazon.nova-micro-v1:0"))])];
     CONFLUENCE_URL := VStr (py "https://wiki");
     EMAIL := VStr (py "reviewer@example.org");
     CONFLUENCE_API_TOKEN := VStr (py "token");
     CODE_BUCKET := VStr (py "code") |}.

Definition demo_request (page_id : string) : Request :=
  Ok (VDict [(py "page_id", VStr (py page_id));
             (py "file_key", VStr (py "review.js"))]).

(** ** The steps of a request

    How far a request has come, and the step at which it raises. *)

Section Flow.
Variables (w : Services) (req : Request) (t : template).

Definition fetch_page (page_id : value) : result value :=
  get_confluence_page_content w page_id
    (CONFLUENCE_URL w) (EMAIL w) (CONFLUENCE_API_TOKEN w).

(** The stored file was read. *)
Definition at_wiki (page_id : value) (code_file : str) : Prop :=
  exists file_key,
    request_fields req page_id file_key /\
    retrieve_code_file_from_s3 w file_key = Ok code_file.

(** The page was fetched and destructured. *)
Definition at_extraction (code_file : str) (content : value) : Prop :=
  exists page_id fetched title,
    at_wiki page_id code_file /\
    fetch_page page_id = Ok fetched /\
    unpack2 fetched = Ok (title, content).

(** The Section Map was extracted. *)
Definition at_prompt (code_file : str) (tech_choice_doc : dict str) : Prop :=
  exists content,
    at_extraction code_file content /\
    extract_headers_and_content_of w content = Ok tech_choice_doc.

(** The system prompt was rendered. *)
Definition at_model (code_file system_prompt : str) : Prop :=
  exists tech_choice_doc,
    at_prompt code_file tech_choice_doc /\
    substitute w t output_format tech_choice_doc = Ok system_prompt.

(** The last statement of [handle_code_review_request]. *)
Definition model_call (code_file system_prompt : str) : result value :=
  nova <- getitem (MODEL_IDS w) (py "nova-micro") ;;
  model_id <- getitem nova (py "id") ;;
  generate_output w model_id
    (format_prompt system_prompt) (format_message (py "user") code_file).

Inductive step_raises (e : exn) : Prop :=
| raise_body_parsing :
    req = Raise e -> step_raises e
| raise_body_fields body :
    req = Ok body ->
    (page_id <- get body (py "page_id") VNone ;;
     get body (py "file_key") VNone) = Raise e ->
    step_raises e
| raise_storage_fetch page_id file_key :
    request_fields req page_id file_key ->
    retrieve_code_file_from_s3 w file_key = Raise e ->
    step_raises e
| raise_wiki_fetch page_id code_file :
    at_wiki page_id code_file ->
    fetch_page page_id = Raise e ->
    step_raises e
| raise_destructuring page_id code_file fetched :
    at_wiki page_id code_file ->
    fetch_page page_id = Ok fetched ->
    unpack2 fetched = Raise e ->
    step_raises e
| raise_extraction code_file content :
    at_extraction code_file content ->
    extract_headers_and_content_of w content = Raise e ->
    step_raises e
| raise_prompt_assembly code_file tech_choice_doc :
    at_prompt code_file tech_choice_doc ->
    substitute w t output_format tech_choice_doc = Raise e ->
    step_raises e
| raise_model_invocation code_file system_prompt :
    at_model code_file system_prompt ->
    model_call code_file system_prompt = Raise e ->
    step_raises e.
End Flow.

(** The elements of a page of guidelines with an introduction and two
    sections, and its sections. *)
Definition guidelines_markup : str :=
  py "<p>Intro</p><h1>APIs</h1><p>Use ESM.</p><p> Use LLRT. </p><h2> Data </h2><p>Prefer Python.</p>".
Definition guidelines_page : soup :=
  [elem "p" "Intro"; elem "h1" "APIs"; elem "p" "Use ESM."; elem "p" " Use LLRT. ";
   elem "h2" " Data "; elem "p" "Prefer Python."].
Definition guidelines_sections : list section :=
  [(elem "h1" "APIs", [elem "p" "Use ESM."; elem "p" " Use LLRT. "]);
   (elem "h2" " Data ", [elem "p" "Prefer Python."])].

(** The elements of [<h1>A</h1><h2>B</h2><p>x</p>]. *)
Definition bare_first_markup : str := py "<h1>A</h1><h2>B</h2><p>x</p>".
Definition bare_first_page : soup :=
  [elem "h1" "A"; elem "h2" "B"; elem "p" "x"].

(** The elements of
    [<h1>A</h1><p>a</p><h2> </h2><p>dropped</p><h3>B</h3><p>b</p>]. *)
Definition blank_middle_markup : str :=
  py "<h1>A</h1><p>a</p><h2> </h2><p>dropped</p><h3>B</h3><p>b</p>".
Definition blank_middle_page : soup :=
  [elem "h1" "A"; elem "p" "a"; elem "h2" " "; elem "p" "dropped";
   elem "h3" "B"; elem "p" "b"].

(** ** Every document as sections *)

(** The paragraphs before the first header, and the sections, of a sequence
    of recognised elements. *)
Fixpoint sections_of (l : list Tag) : list Tag * list section :=
  match l with
  | [] => ([], [])
  | t :: l' =>
      let (pre, secs) := sections_of l' in
      if is_header t then ([], (t, pre) :: secs) else (t :: pre, secs)
  end.

(** The header texts of a document that are not empty, in document order. *)
Definition header_texts (s : soup) : list str :=
  filter nonempty (map (fun t => strip (get_text t)) (filter is_header s)).

Definition add_key (ks : list str) (k : str) : list str :=
  if member k ks then ks else ks ++ [k].

(** Each string once, at the place of its first occurrence. *)
Definition first_occurrences (l : list str) : list str :=
  fold_left add_key l [].

(** A string that neither starts nor ends with white space. *)
Definition starts_clean (s : str) : bool :=
  match s with
  | [] => true
  | c :: _ => negb (isspace c)
  end.

Definition trimmed (s : str) : bool := starts_clean s && starts_clean (rev s).

(** The sections of a document. *)
Definition document_sections (s : soup) : list section :=
  snd (sections_of (find_all recognised_names s)).

(** A reply with two content blocks and no usage numbers, and the deployment
    whose model service answers with it. *)
Definition text_only_reply : value :=
  VDict [(py "output",
          VDict [(py "message",
                  VDict [(py "content",
                          VList [VDict [(py "text", VStr (py "first"))];
                                 VDict [(py "text", VStr (py "second"))]])])])].

(** Replies that carry the usage numbers, with the given content blocks, and
    the deployment whose model service answers with a given reply. *)
Definition reply_with_blocks (blocks : list value) : value :=
  VDict [(py "output",
          VDict [(py "message", VDict [(py "content", VList blocks)])]);
         (py "usage",
          VDict [(py "inputTokens", VInt 10); (py "outputTokens", VInt 5);
                 (py "totalTokens", VInt 15)]);
         (py "metrics", VDict [(py "latencyMs", VInt 120)])].

Definition two_block_reply : value :=
  reply_with_blocks [VDict [(py "text", VStr (py "first"))];
                     VDict [(py "text", VStr (py "second"))]].

Definition blockless_reply : value := reply_with_blocks [].

Definition replying (reply : value) : Services :=
  {| BeautifulSoup := BeautifulSoup demo_services;
     BeautifulSoup_object := BeautifulSoup_object demo_services;
     requests_get := requests_get demo_services;
     s3_get_object := s3_get_object demo_services;
     converse := fun _ _ _ _ => Ok reply;
     substitute := substitute demo_services;
     float := float demo_services;
     repr := repr demo_services;
     MODEL_IDS := MODEL_IDS demo_services;
     CONFLUENCE_URL := CONFLUENCE_URL demo_services;
     EMAIL := EMAIL demo_services;
     CONFLUENCE_API_TOKEN := CONFLUENCE_API_TOKEN demo_services;
     CODE_BUCKET := CODE_BUCKET demo_services |}.

Definition quiet_services : Services :=
  {| BeautifulSoup := BeautifulSoup demo_services;
     BeautifulSoup_object := BeautifulSoup_object demo_services;
     requests_get := requests_get demo_services;
     s3_get_object := s3_get_object demo_services;
     converse := fun _ _ _ _ => Ok text_only_reply;
     substitute := substitute demo_services;
     float := float demo_services;
     repr := repr demo_services;
     MODEL_IDS := MODEL_IDS demo_services;
     CONFLUENCE_URL := CONFLUENCE_URL demo_services;
     EMAIL := EMAIL demo_services;
     CONFLUENCE_API_TOKEN := CONFLUENCE_API_TOKEN demo_services;
     CODE_BUCKET := CODE_BUCKET demo_services |}.

(** The last section of a header text. *)
Definition last_section (k : str) (secs : list section) : option section :=
  find (fun x => str_eqb (header_text x) k) (rev secs).

(** * Properties *)

(** ** Dictionaries *)

Section DictFacts.
Context {V : Type}.
Implicit Types (d : dict V) (k : str) (v : V).

Lemma dict_get_set_same d k v : dict_get (dict_set d k v) k = Some v.
Proof.
  induction d as [|[k' v'] d IH]; simpl.
  - destruct (str_eq_dec k k); congruence.
  - destruct (str_eq_dec k' k) as [E|N]; simpl.
    + destruct (str_eq_dec k' k); congruence.
    + destruct (str_eq_dec k' k); congruence.
Qed.

Lemma dict_get_set_other d k v k' :
  k <> k' -> dict_get (dict_set d k v) k' = dict_get d k'.
Proof.
  intros N. induction d as [|[k0 v0] d IH]; simpl.
  - destruct (str_eq_dec k k'); congruence.
  - destruct (str_eq_dec k0 k) as [E|N0]; simpl.
    + destruct (str_eq_dec k0 k'); congruence.
    + destruct (str_eq_dec k0 k'); congruence.
Qed.

Lemma dict_set_present d k v : In k (keys d) -> keys (dict_set d k v) = keys d.
Proof.
  induction d as [|[k0 v0] d IH]; simpl; [tauto|].
  intros H. destruct (str_eq_dec k0 k) as [E|N]; simpl; [reflexivity|].
  f_equal. apply IH. destruct H; congruence.
Qed.

Lemma dict_set_absent d k v : ~ In k (keys d) -> dict_set d k v = d ++ [(k, v)].
Proof.
  induction d as [|[k0 v0] d IH]; simpl; [reflexivity|].
  intros H. destruct (str_eq_dec k0 k) as [E|N]; [tauto|].
  f_equal. apply IH. tauto.
Qed.

Lemma in_keys_set d k v k' :
  In k' (keys (dict_set d k v)) <-> k' = k \/ In k' (keys d).
Proof.
  destruct (in_dec str_eq_dec k (keys d)) as [I|N].
  - rewrite (dict_set_present d k v I). split; [tauto|].
    intros [->|H]; assumption.
  - rewrite (dict_set_absent d k v N). unfold keys. rewrite map_app, in_app_iff.
    simpl. intuition congruence.
Qed.

Lemma NoDup_keys_set d k v : NoDup (keys d) -> NoDup (keys (dict_set d k v)).
Proof.
  intros ND. destruct (in_dec str_eq_dec k (keys d)) as [I|N].
  - rewrite (dict_set_present d k v I). exact ND.
  - rewrite (dict_set_absent d k v N). unfold keys. rewrite map_app. simpl.
    apply NoDup_app; [exact ND|repeat constructor; simpl; tauto|].
    intros x Hx [<-|[]]. exact (N Hx).
Qed.

Lemma length_dict_set d k v : length (dict_set d k v) <= S (length d).
Proof.
  induction d as [|[k0 v0] d IH]; simpl; [lia|].
  destruct (str_eq_dec k0 k); simpl; lia.
Qed.

Lemma dict_update_app d es1 es2 :
  dict_update d (es1 ++ es2) = dict_update (dict_update d es1) es2.
Proof. apply fold_left_app. Qed.

Lemma NoDup_keys_update es : forall d,
  NoDup (keys d) -> NoDup (keys (dict_update d es)).
Proof.
  induction es as [|e es IH]; simpl; intros d ND; [exact ND|].
  apply IH, NoDup_keys_set, ND.
Qed.

Lemma in_keys_update es : forall d k,
  In k (keys (dict_update d es)) <-> In k (keys d) \/ In k (map fst es).
Proof.
  induction es as [|e es IH]; simpl; intros d k; [tauto|].
  rewrite IH, in_keys_set. intuition congruence.
Qed.

Lemma length_update es : forall d,
  length (dict_update d es) <= length d + length es.
Proof.
  induction es as [|e es IH]; simpl; intros d; [lia|].
  specialize (IH (dict_set d (fst e) (snd e))).
  pose proof (length_dict_set d (fst e) (snd e)). lia.
Qed.

Lemma dict_get_update_absent es : forall d k,
  ~ In k (map fst es) -> dict_get (dict_update d es) k = dict_get d k.
Proof.
  induction es as [|e es IH]; simpl; intros d k N; [reflexivity|].
  rewrite IH by tauto. apply dict_get_set_other. tauto.
Qed.

(** The last assignment to a key is the one that is read. *)
Lemma dict_get_update_last d es1 k v es2 :
  ~ In k (map fst es2) ->
  dict_get (dict_update d (es1 ++ (k, v) :: es2)) k = Some v.
Proof.
  intros N. rewrite dict_update_app. simpl.
  rewrite dict_get_update_absent by exact N. apply dict_get_set_same.
Qed.

(** Fresh, distinct keys are appended in order. *)
Lemma dict_update_fresh es : forall d,
  NoDup (map fst es) ->
  (forall k, In k (map fst es) -> ~ In k (keys d)) ->
  dict_update d es = d ++ es.
Proof.
  induction es as [|[k v] es IH]; simpl; intros d ND F.
  - now rewrite app_nil_r.
  - inversion ND as [|? ? Hk ND']; subst.
    rewrite dict_set_absent by (apply F; now left).
    rewrite IH; [now rewrite <- app_assoc|exact ND'|].
    intros k' Hk' I. unfold keys in I. rewrite map_app, in_app_iff in I.
    destruct I as [I|[<-|[]]]; [|exact (Hk Hk')].
    apply (F k'); [now right|exact I].
Qed.

Lemma dict_get_absent d k : ~ In k (keys d) -> dict_get d k = None.
Proof.
  induction d as [|[k0 v0] d IH]; simpl; [reflexivity|].
  intros N. destruct (str_eq_dec k0 k); [tauto|]. apply IH. tauto.
Qed.
End DictFacts.

(** ** The loop of the extractor *)

Lemma paragraph_not_header t : is_paragraph t = true -> is_header t = false.
Proof.
  unfold is_paragraph, is_header, str_eqb.
  destruct (str_eq_dec (name t) (py "p")) as [E|]; [|discriminate].
  intros _. rewrite E. reflexivity.
Qed.

Lemma member_recognised t :
  member (name t) recognised_names = is_header t || is_paragraph t.
Proof.
  unfold member, recognised_names, is_header, is_paragraph.
  rewrite existsb_app. f_equal. cbn [existsb]. apply orb_false_r.
Qed.

Lemma visit_header st t :
  is_header t = true ->
  visit st t = {| content_dict := commit st;
                  current_header := Some (strip (get_text t));
                  current_content := [] |}.
Proof. unfold visit, is_header. now intros ->. Qed.

Lemma visit_paragraph st t :
  is_paragraph t = true ->
  visit st t =
    if truthy (current_header st)
    then {| content_dict := content_dict st;
            current_header := current_header st;
            current_content := current_content st ++ [strip (get_text t)] |}
    else st.
Proof.
  intros P. pose proof (paragraph_not_header t P) as H.
  unfold visit. unfold is_header in H. unfold is_paragraph in P.
  now rewrite H, P.
Qed.

Lemma visit_other st t :
  is_header t = false -> is_paragraph t = false -> visit st t = st.
Proof.
  unfold visit, is_header, is_paragraph. now intros -> ->.
Qed.

Lemma scan_app st l1 l2 : scan st (l1 ++ l2) = scan (scan st l1) l2.
Proof. apply fold_left_app. Qed.

(** The loop may as well run over every element: an element that
    [find_all] leaves out would change nothing. *)
Lemma scan_find_all s : forall st,
  scan st (find_all recognised_names s) = scan st s.
Proof.
  induction s as [|t s IH]; intros st; [reflexivity|].
  unfold find_all. cbn [filter]. fold (find_all recognised_names s).
  rewrite member_recognised.
  destruct (is_header t) eqn:H; cbn [orb]; [apply IH|].
  destruct (is_paragraph t) eqn:P; [apply IH|].
  cbn [scan fold_left]. rewrite (visit_other st t H P). apply IH.
Qed.

Lemma scan_paragraphs ps : forall st,
  forallb is_paragraph ps = true ->
  scan st ps =
    if truthy (current_header st)
    then {| content_dict := content_dict st;
            current_header := current_header st;
            current_content :=
              current_content st ++ map (fun p => strip (get_text p)) ps |}
    else st.
Proof.
  induction ps as [|p ps IH]; intros st H; simpl.
  - rewrite app_nil_r. destruct st; simpl. now destruct (truthy _).
  - simpl in H. apply andb_true_iff in H as [P Ps].
    rewrite (visit_paragraph st p P).
    destruct (truthy (current_header st)) eqn:T.
    + rewrite IH by exact Ps. simpl. rewrite T. now rewrite <- app_assoc.
    + rewrite IH by exact Ps. now rewrite T.
Qed.

Lemma scan_section st s :
  well_formed s = true -> scan st (fst s :: snd s) = after_section st s.
Proof.
  unfold well_formed. intros H. apply andb_true_iff in H as [H Ps].
  simpl. rewrite (visit_header st _ H), (scan_paragraphs _ _ Ps). simpl.
  unfold after_section, header_text. now destruct (nonempty _).
Qed.

Lemma commit_after_section st s :
  commit (after_section st s) = record (commit st) s.
Proof.
  unfold commit at 1, after_section, record, section_text, paragraphs_text.
  simpl. now destruct (nonempty (header_text s)).
Qed.

Lemma scan_elements secs : forall st,
  forallb well_formed secs = true ->
  commit (scan st (elements secs)) = fold_left record secs (commit st).
Proof.
  induction secs as [|s secs IH]; intros st H; [reflexivity|].
  simpl in H. apply andb_true_iff in H as [Hs H].
  change (elements (s :: secs)) with ((fst s :: snd s) ++ elements secs).
  rewrite scan_app, (scan_section st s Hs), IH by exact H.
  now rewrite commit_after_section.
Qed.

(** The Section Map of a document, section by section. *)
Lemma extract_sections s pre secs :
  find_all recognised_names s = pre ++ elements secs ->
  forallb is_paragraph pre = true ->
  forallb well_formed secs = true ->
  extract_soup s = fold_left record secs [].
Proof.
  intros E Hpre Hsecs. unfold extract_soup.
  rewrite E, scan_app, (scan_paragraphs _ _ Hpre). simpl.
  now rewrite scan_elements.
Qed.

Lemma fold_record_update secs : forall d,
  fold_left record secs d =
  dict_update d (map entry (filter (fun s => nonempty (header_text s)) secs)).
Proof.
  induction secs as [|s secs IH]; intros d; [reflexivity|].
  simpl. unfold record at 2.
  destruct (nonempty (header_text s)); simpl; apply IH.
Qed.

Lemma filter_all {A} (f : A -> bool) l : forallb f l = true -> filter f l = l.
Proof.
  induction l as [|a l IH]; simpl; [reflexivity|].
  intros H. apply andb_true_iff in H as [-> H]. now rewrite IH.
Qed.

Lemma maps_sections_update secs :
  maps_sections secs (dict_update [] (map entry secs)).
Proof.
  assert (K : map fst (map entry secs) = map header_text secs)
    by (rewrite map_map; reflexivity).
  repeat split.
  - apply NoDup_keys_update. constructor.
  - intros H. apply in_keys_update in H as [[]|H]. now rewrite <- K.
  - intros H. apply in_keys_update. right. now rewrite K.
  - unfold keys. rewrite length_map.
    pose proof (length_update (map entry secs) []) as L.
    rewrite length_map in L. exact L.
  - intros ND. rewrite dict_update_fresh; [reflexivity|now rewrite K|].
    intros k _ [].
  - intros before s after -> N. rewrite map_app. simpl.
    apply dict_get_update_last.
    rewrite map_map. exact N.
Qed.

Lemma extract_update s pre secs :
  find_all recognised_names s = pre ++ elements secs ->
  forallb is_paragraph pre = true ->
  forallb well_formed secs = true ->
  extract_soup s =
  dict_update [] (map entry (filter (fun s => nonempty (header_text s)) secs)).
Proof.
  intros E Hpre Hsecs.
  rewrite (extract_sections s pre secs E Hpre Hsecs). apply fold_record_update.
Qed.

Lemma nonempty_true (k : str) : nonempty k = true <-> k <> [].
Proof. destruct k; simpl; split; congruence. Qed.

Lemma in_titled_headers k secs :
  In k (map fst (map entry (filter (fun s => nonempty (header_text s)) secs)))
  <-> k <> [] /\ In k (map header_text secs).
Proof.
  rewrite map_map. simpl. rewrite !in_map_iff. split.
  - intros (s & <- & H). apply filter_In in H as [H N].
    split; [now apply nonempty_true|]. now exists s.
  - intros (N & s & <- & H). exists s. split; [reflexivity|].
    apply filter_In. split; [exact H|]. now apply nonempty_true.
Qed.

(** The keys of the Section Map are the header texts that are not empty,
    each of them once. *)
Lemma extract_keys s pre secs :
  find_all recognised_names s = pre ++ elements secs ->
  forallb is_paragraph pre = true ->
  forallb well_formed secs = true ->
  NoDup (keys (extract_soup s)) /\
  (forall k, In k (keys (extract_soup s)) <-> k <> [] /\ In k (map header_text secs)).
Proof.
  intros E Hpre Hsecs. rewrite (extract_update s pre secs E Hpre Hsecs). split.
  - apply NoDup_keys_update. constructor.
  - intros k. rewrite in_keys_update, in_titled_headers. simpl. tauto.
Qed.

(** The value of a key is the text of the last section of that header. *)
Lemma extract_last_section s pre before sec after :
  find_all recognised_names s = pre ++ elements (before ++ sec :: after) ->
  forallb is_paragraph pre = true ->
  forallb well_formed (before ++ sec :: after) = true ->
  header_text sec <> [] ->
  ~ In (header_text sec) (map header_text after) ->
  dict_get (extract_soup s) (header_text sec) = Some (section_text sec).
Proof.
  intros E Hpre Hsecs N L. rewrite (extract_update s pre _ E Hpre Hsecs).
  rewrite filter_app. simpl.
  apply nonempty_true in N. rewrite N. rewrite map_app. simpl.
  apply (dict_get_update_last (V := str)).
  intros I. apply in_titled_headers in I. tauto.
Qed.

(** C1, as the claim states it, fails on a header whose text is blank: the
    document [<h1> </h1><p>a</p>] has one header and its Section Map has no
    key. *)
Lemma blank_header_has_no_key :
  parse_as blank_header_page blank_header_markup = Ok blank_header_page /\
  find_all recognised_names blank_header_page
    = [] ++ elements blank_header_sections /\
  forallb is_paragraph [] = true /\
  forallb well_formed blank_header_sections = true /\
  extract_headers_and_content (parse_as blank_header_page) blank_header_markup
    = Ok [] /\
  ~ maps_sections blank_header_sections [].
Proof.
  split; [reflexivity|].
  split; [vm_compute; reflexivity|].
  split; [reflexivity|].
  split; [vm_compute; reflexivity|].
  split; [vm_compute; reflexivity|].
  intros (_ & K & _). apply (proj2 (K [])). left. vm_compute. reflexivity.
Qed.

(** C1, amended: for every document whose recognised elements are some
    paragraphs, then headers H1..Hn (levels 1 to 5) each followed by its
    paragraphs, and whose headers all have a trimmed text that is not empty,
    the Section Map has one key for each distinct trimmed header text (n keys,
    in document order, when the texts are distinct), and the value of a key is
    the trimmed, space-joined concatenation of the trimmed texts of the
    paragraphs between the last header of that text and the next header. *)
Theorem titled_sections_are_mapped
    (BeautifulSoup : str -> result soup) (content : str) parsed pre secs :
  BeautifulSoup content = Ok parsed ->
  find_all recognised_names parsed = pre ++ elements secs ->
  forallb is_paragraph pre = true ->
  forallb well_formed secs = true ->
  forallb (fun s => nonempty (header_text s)) secs = true ->
  exists d,
    extract_headers_and_content BeautifulSoup content = Ok d /\
    maps_sections secs d.
Proof.
  intros P E Hpre Hsecs Hne. unfold extract_headers_and_content.
  rewrite P. cbn [bind]. eexists. split; [reflexivity|].
  rewrite (extract_update _ pre secs E Hpre Hsecs), (filter_all _ _ Hne).
  apply maps_sections_update.
Qed.

(** C2, as the claim states it, fails when the header text that repeats is
    the empty one: [<h2></h2><h2></h2>] has the empty header text twice and
    its Section Map has no key at all. *)
Lemma repeated_blank_header_has_no_key :
  parse_as blank_twice_page blank_twice_markup = Ok blank_twice_page /\
  find_all recognised_names blank_twice_page
    = [] ++ elements blank_twice_sections /\
  forallb well_formed blank_twice_sections = true /\
  repeated [] blank_twice_sections /\
  extract_headers_and_content (parse_as blank_twice_page) blank_twice_markup
    = Ok [] /\
  ~ last_write_wins blank_twice_sections [] [].
Proof.
  split; [reflexivity|].
  split; [vm_compute; reflexivity|].
  split; [vm_compute; reflexivity|].
  split; [vm_compute; lia|].
  split; [vm_compute; reflexivity|].
  intros [C _]. vm_compute in C. discriminate.
Qed.

(** C2, amended: for every document in which the same trimmed header text,
    not the empty one, occurs more than once, the Section Map has that text
    as a key exactly once, and its value is the content of the last
    occurrence; the body
    [<h2>Style</h2><p>Use semicolons.</p><h2>Style</h2><p>Use 2-space indent.</p>]
    gives the one entry "Style": "Use 2-space indent.". *)
Theorem repeated_header_last_write_wins :
  (forall (BeautifulSoup : str -> result soup) (content : str) parsed pre secs k,
      BeautifulSoup content = Ok parsed ->
      find_all recognised_names parsed = pre ++ elements secs ->
      forallb is_paragraph pre = true ->
      forallb well_formed secs = true ->
      k <> [] ->
      repeated k secs ->
      exists d,
        extract_headers_and_content BeautifulSoup content = Ok d /\
        last_write_wins secs d k) /\
  (forall (BeautifulSoup : str -> result soup) (content : str),
      BeautifulSoup content = Ok style_page ->
      extract_headers_and_content BeautifulSoup content
        = Ok [(py "Style", py "Use 2-space indent.")]).
Proof.
  unfold extract_headers_and_content. split.
  - intros BeautifulSoup content parsed pre secs k P E Hpre Hsecs N R.
    rewrite P. cbn [bind]. eexists. split; [reflexivity|].
    destruct (extract_keys _ pre secs E Hpre Hsecs) as [ND K]. split.
    + assert (I : In k (keys (extract_soup parsed))).
      { apply K. split; [exact N|].
        apply (count_occ_In str_eq_dec). unfold repeated in R. lia. }
      apply (count_occ_In str_eq_dec) in I.
      pose proof (proj1 (NoDup_count_occ str_eq_dec _) ND k). lia.
    + intros before s after -> <- L.
      now apply (extract_last_section _ pre before s after).
  - intros BeautifulSoup content ->. vm_compute. reflexivity.
Qed.

(** ** Elements before the first header, and headers without a text *)

Lemma extract_soup_scan s : extract_soup s = commit (scan scan_init s).
Proof. unfold extract_soup. now rewrite scan_find_all. Qed.

Lemma commit_idle st : truthy (current_header st) = false -> commit st = content_dict st.
Proof.
  unfold commit, truthy. destruct (current_header st) as [h|]; [|reflexivity].
  now intros ->.
Qed.

(** While no header with a text was seen, the loop only waits for one: what
    it does next depends on the dictionary alone. *)
Lemma scan_idle tags : forall st1 st2,
  content_dict st1 = content_dict st2 ->
  truthy (current_header st1) = false ->
  truthy (current_header st2) = false ->
  commit (scan st1 tags) = commit (scan st2 tags).
Proof.
  induction tags as [|t tags IH]; intros st1 st2 D T1 T2.
  - simpl. now rewrite !commit_idle.
  - cbn [scan fold_left]. fold (scan (visit st1 t) tags) (scan (visit st2 t) tags).
    destruct (is_header t) eqn:H.
    + rewrite !visit_header by exact H.
      rewrite (commit_idle st1 T1), (commit_idle st2 T2), D. reflexivity.
    + destruct (is_paragraph t) eqn:P.
      * rewrite !visit_paragraph by exact P. rewrite T1, T2. now apply IH.
      * rewrite !visit_other by assumption. now apply IH.
Qed.

Lemma scan_untitled junk : forall st,
  forallb untitled junk = true ->
  truthy (current_header st) = false ->
  content_dict (scan st junk) = content_dict st /\
  truthy (current_header (scan st junk)) = false.
Proof.
  induction junk as [|t junk IH]; intros st U T; [now split|].
  simpl in U. apply andb_true_iff in U as [Ut U].
  cbn [scan fold_left]. fold (scan (visit st t) junk).
  destruct (is_header t) eqn:H.
  - unfold untitled in Ut. rewrite H in Ut. simpl in Ut.
    apply negb_true_iff in Ut.
    rewrite visit_header by exact H.
    match goal with |- context [scan ?st' junk] =>
      destruct (IH st' U Ut) as [D T'] end.
    simpl in D. now rewrite D, T', commit_idle.
  - destruct (is_paragraph t) eqn:P.
    + rewrite visit_paragraph by exact P. rewrite T. now apply IH.
    + rewrite visit_other by assumption. now apply IH.
Qed.

Lemma not_header_untitled l :
  forallb not_header l = true -> forallb untitled l = true.
Proof.
  induction l as [|t l IH]; simpl; [reflexivity|].
  intros H. apply andb_true_iff in H as [H Hl].
  rewrite IH by exact Hl. unfold untitled. unfold not_header in H. now rewrite H.
Qed.

Lemma commit_no_blank_key st :
  ~ In [] (keys (content_dict st)) -> ~ In [] (keys (commit st)).
Proof.
  unfold commit. destruct (current_header st) as [h|]; [|tauto].
  destruct h as [|c h]; simpl; [tauto|].
  intros N I. apply in_keys_set in I as [I|I]; [discriminate|tauto].
Qed.

Lemma scan_no_blank_key tags : forall st,
  ~ In [] (keys (content_dict st)) ->
  ~ In [] (keys (content_dict (scan st tags))).
Proof.
  induction tags as [|t tags IH]; intros st N; [exact N|].
  cbn [scan fold_left]. fold (scan (visit st t) tags). apply IH.
  destruct (is_header t) eqn:H.
  - rewrite visit_header by exact H. simpl. now apply commit_no_blank_key.
  - destruct (is_paragraph t) eqn:P.
    + rewrite visit_paragraph by exact P. now destruct (truthy _).
    + now rewrite visit_other.
Qed.

(** C4: for every document, the elements before the first header element,
    paragraphs included, contribute nothing: the Section Map is the one of
    the rest of the document; a document without any header element, one of
    paragraphs only for instance, yields the empty map. *)
Theorem content_before_first_header_is_dropped
    (BeautifulSoup : str -> result soup) (content : str) :
  (forall before after,
      BeautifulSoup content = Ok (before ++ after) ->
      forallb not_header before = true ->
      extract_headers_and_content BeautifulSoup content
        = Ok (extract_soup after)) /\
  (forall parsed,
      BeautifulSoup content = Ok parsed ->
      forallb not_header parsed = true ->
      extract_headers_and_content BeautifulSoup content = Ok []).
Proof.
  assert (G : forall before after,
             forallb not_header before = true ->
             extract_soup (before ++ after) = extract_soup after).
  { intros before after H. rewrite !extract_soup_scan, scan_app.
    destruct (scan_untitled before scan_init (not_header_untitled _ H) eq_refl)
      as [D T].
    apply scan_idle; [exact D|exact T|reflexivity]. }
  unfold extract_headers_and_content. split.
  - intros before after -> H. cbn [bind]. now rewrite G.
  - intros parsed -> H. cbn [bind]. rewrite <- (app_nil_r parsed). now rewrite G.
Qed.

(** A key keeps its value while no header of that text is seen. *)
Lemma scan_keeps_value k tags : forall st,
  (forall t, In t tags -> is_header t = true -> strip (get_text t) <> k) ->
  current_header st <> Some k ->
  dict_get (commit (scan st tags)) k = dict_get (content_dict st) k.
Proof.
  assert (C : forall st, current_header st <> Some k ->
                         dict_get (commit st) k = dict_get (content_dict st) k).
  { intros st N. unfold commit. destruct (current_header st) as [h|]; [|reflexivity].
    destruct (nonempty h); [|reflexivity]. apply dict_get_set_other. congruence. }
  induction tags as [|t tags IH]; intros st F N.
  - now apply C.
  - cbn [scan fold_left]. fold (scan (visit st t) tags).
    destruct (is_header t) eqn:H.
    + rewrite visit_header by exact H. rewrite IH.
      * simpl. now apply C.
      * intros t' I. apply F. now right.
      * simpl. intros E. injection E as E. apply (F t); [now left|exact H|exact E].
    + assert (V : content_dict (visit st t) = content_dict st /\
                  current_header (visit st t) = current_header st).
      { destruct (is_paragraph t) eqn:P.
        - rewrite visit_paragraph by exact P. now destruct (truthy _).
        - now rewrite visit_other. }
      destruct V as [V1 V2]. rewrite IH.
      * now rewrite V1.
      * intros t' I. apply F. now right.
      * now rewrite V2.
Qed.

(** C9: a header element whose trimmed text is empty is never a key of the
    Section Map; it commits the section before it, whose header keeps the
    text of its own paragraphs as its value; and from the blank header to the
    next header that has a text the loop is where it would be with no current
    header: the elements in between, paragraphs included, are dropped. *)
Theorem blank_header_is_no_header
    (BeautifulSoup : str -> result soup) (content : str) (parsed : soup) :
  BeautifulSoup content = Ok parsed ->
  extract_headers_and_content BeautifulSoup content = Ok (extract_soup parsed) /\
  ~ In [] (keys (extract_soup parsed)) /\
  (forall before h0 ps h junk after,
      parsed = before ++ h0 :: ps ++ h :: junk ++ after ->
      is_header h0 = true ->
      forallb is_paragraph ps = true ->
      strip (get_text h0) <> [] ->
      is_header h = true ->
      strip (get_text h) = [] ->
      forallb untitled junk = true ->
      (forall t, In t after -> is_header t = true ->
                 strip (get_text t) <> strip (get_text h0)) ->
      dict_get (extract_soup parsed) (strip (get_text h0))
        = Some (paragraphs_text ps)) /\
  (forall before h junk after,
      parsed = before ++ h :: junk ++ after ->
      is_header h = true ->
      strip (get_text h) = [] ->
      forallb untitled junk = true ->
      extract_soup parsed =
      commit (scan {| content_dict := extract_soup before;
                      current_header := None;
                      current_content := [] |} after)) /\
  (forall before h junk,
      parsed = before ++ h :: junk ->
      is_header h = true ->
      strip (get_text h) = [] ->
      forallb untitled junk = true ->
      extract_soup parsed = extract_soup before).
Proof.
  intros P.
  assert (G : forall before h junk after,
             is_header h = true -> strip (get_text h) = [] ->
             forallb untitled junk = true ->
             extract_soup (before ++ h :: junk ++ after) =
             commit (scan {| content_dict := extract_soup before;
                             current_header := None;
                             current_content := [] |} after)).
  { intros before h junk after H B U.
    rewrite !extract_soup_scan, scan_app.
    cbn [scan fold_left]. fold (scan (visit (scan scan_init before) h) (junk ++ after)).
    rewrite scan_app, visit_header, B by exact H.
    match goal with |- commit (scan (scan ?st junk) after) = _ =>
      destruct (scan_untitled junk st U eq_refl) as [D T] end.
    apply scan_idle; [exact D|exact T|reflexivity]. }
  split; [|split; [|split; [|split]]].
  - unfold extract_headers_and_content. now rewrite P.
  - rewrite extract_soup_scan. apply commit_no_blank_key, scan_no_blank_key.
    simpl. tauto.
  - intros before h0 ps h junk after -> H0 Ps N H B U F.
    rewrite extract_soup_scan, scan_app.
    change (h0 :: ps ++ h :: junk ++ after)
      with ((fst (h0, ps) :: snd (h0, ps)) ++ h :: junk ++ after).
    rewrite scan_app, scan_section
      by (unfold well_formed; simpl; now rewrite H0, Ps).
    cbn [scan fold_left].
    fold (scan (visit (after_section (scan scan_init before) (h0, ps)) h)
            (junk ++ after)).
    rewrite visit_header by exact H. rewrite scan_keeps_value.
    + cbn [content_dict]. rewrite commit_after_section. unfold record.
      change (header_text (h0, ps)) with (strip (get_text h0)).
      apply nonempty_true in N. rewrite N. apply dict_get_set_same.
    + intros t I Ht E. apply in_app_iff in I as [I|I].
      * rewrite forallb_forall in U. specialize (U t I).
        unfold untitled in U. rewrite Ht in U. simpl in U.
        apply negb_true_iff in U. rewrite E in U.
        apply nonempty_true in N. congruence.
      * exact (F t I Ht E).
    + cbn [current_header]. rewrite B. intros E. injection E as E.
      now apply N.
  - intros before h junk after -> H B U. now apply G.
  - intros before h junk E H B U.
    rewrite <- (app_nil_r junk) in E. rewrite E, (G _ _ _ _ H B U). reflexivity.
Qed.

(** C5, as the claim states it, fails twice on
    [<h1></h1><h1>A</h1><h1>A</h1><p>x</p>]: the first header has no text and
    is no key, and the second header, which the third follows at once, has
    the paragraph of the third as its value. *)
Lemma bare_header_need_not_map_to_empty :
  parse_as bare_headers_page bare_headers_markup = Ok bare_headers_page /\
  find_all recognised_names bare_headers_page
    = [] ++ elements bare_headers_sections /\
  forallb well_formed bare_headers_sections = true /\
  extract_headers_and_content (parse_as bare_headers_page) bare_headers_markup
    = Ok [(py "A", py "x")] /\
  dict_get [(py "A", py "x")] [] = None /\
  dict_get [(py "A", py "x")] (py "A") = Some (py "x") /\
  ~ bare_headers_map_to_empty bare_headers_sections [(py "A", py "x")].
Proof.
  split; [reflexivity|].
  split; [vm_compute; reflexivity|].
  split; [vm_compute; reflexivity|].
  split; [vm_compute; reflexivity|].
  split; [vm_compute; reflexivity|].
  split; [vm_compute; reflexivity|].
  intros B.
  specialize (B [] (elem "h1" "") [(elem "h1" "A", []); (elem "h1" "A", [elem "p" "x"])] eq_refl).
  vm_compute in B. discriminate.
Qed.

(** C5, amended: for every document in which a header element whose trimmed
    text is not empty is immediately followed by another header element or by
    the end of the document, and in which no later header has the same
    trimmed text, the Section Map maps that trimmed text to the empty
    string. *)
Theorem bare_header_maps_to_empty
    (BeautifulSoup : str -> result soup) (content : str)
    parsed pre before h after :
  BeautifulSoup content = Ok parsed ->
  find_all recognised_names parsed
    = pre ++ elements (before ++ (h, []) :: after) ->
  forallb is_paragraph pre = true ->
  forallb well_formed (before ++ (h, []) :: after) = true ->
  strip (get_text h) <> [] ->
  ~ In (strip (get_text h)) (map header_text after) ->
  exists d,
    extract_headers_and_content BeautifulSoup content = Ok d /\
    dict_get d (strip (get_text h)) = Some [].
Proof.
  intros P E Hpre Hsecs N L. unfold extract_headers_and_content.
  rewrite P. cbn [bind]. eexists. split; [reflexivity|].
  exact (extract_last_section _ pre before (h, []) after E Hpre Hsecs N L).
Qed.

(** ** When the extractor returns *)

(** C3, as the claim states it, fails on a markup the parser rejects: on
    [<![foo bar] the call of [BeautifulSoup] raises [ParserRejectedMarkup],
    the extractor has no handler around it, and no Section Map is
    returned. *)
Lemma rejected_markup_raises :
  BeautifulSoup demo_services rejected_markup
    = Raise (External (py "ParserRejectedMarkup")) /\
  extract_headers_and_content (BeautifulSoup demo_services) rejected_markup
    = Raise (External (py "ParserRejectedMarkup")) /\
  extract_headers_and_content_of demo_services (VStr rejected_markup)
    = Raise (External (py "ParserRejectedMarkup")) /\
  ~ (exists d,
        extract_headers_and_content (BeautifulSoup demo_services) rejected_markup
        = Ok d).
Proof.
  split; [vm_compute; reflexivity|].
  split; [vm_compute; reflexivity|].
  split; [vm_compute; reflexivity|].
  intros [d H]. vm_compute in H. discriminate.
Qed.

(** C3, amended: for every input string that the parser accepts, the
    extractor returns a Section Map without raising, and the map is empty
    when the parser found no recognised header or paragraph element, as it
    does for the empty string; for a string that the parser rejects, the
    extractor raises the exception of the parser. *)
Theorem extractor_follows_the_parser (w : Services) (content : str) :
  (forall parsed,
      BeautifulSoup w content = Ok parsed ->
      extract_headers_and_content (BeautifulSoup w) content
        = Ok (extract_soup parsed) /\
      extract_headers_and_content_of w (VStr content) = Ok (extract_soup parsed) /\
      (find_all recognised_names parsed = [] ->
       extract_headers_and_content (BeautifulSoup w) content = Ok [])) /\
  (forall e,
      BeautifulSoup w content = Raise e ->
      extract_headers_and_content (BeautifulSoup w) content = Raise e /\
      extract_headers_and_content_of w (VStr content) = Raise e) /\
  (BeautifulSoup w [] = Ok [] ->
   extract_headers_and_content (BeautifulSoup w) [] = Ok []).
Proof.
  unfold extract_headers_and_content_of, extract_headers_and_content.
  split; [|split].
  - intros parsed ->. cbn [bind]. split; [reflexivity|]. split; [reflexivity|].
    unfold extract_soup. now intros ->.
  - intros e ->. now split.
  - now intros ->.
Qed.

(** ** The document fetcher *)

Lemma page_of_failure response :
  status_code response <> 200%Z ->
  page_of_response response =
  Ok (VStr (py "Error: " ++ str_of_int (status_code response)
            ++ py " - " ++ text response)).
Proof.
  intros N. unfold page_of_response.
  destruct (Z.eqb_spec (status_code response) 200); [contradiction|reflexivity].
Qed.

Lemma fetch_of_failure
    (w : Services) (page_id confluence_url email api_token : value) response :
  requests_get w (page_url w confluence_url page_id) email api_token
    = Ok response ->
  status_code response <> 200%Z ->
  get_confluence_page_content w page_id confluence_url email api_token =
  Ok (VStr (py "Error: " ++ str_of_int (status_code response)
            ++ py " - " ++ text response)).
Proof.
  intros R N. unfold get_confluence_page_content. rewrite R. simpl.
  now apply page_of_failure.
Qed.

(** C6: for every response of the wiki whose status code is not 200, the
    fetcher returns, and does not raise, the string made of "Error: ", the
    status code, " - " and the text of the response. *)
Theorem fetch_failure_is_a_string
    (w : Services) (page_id confluence_url email api_token : value) response :
  requests_get w (page_url w confluence_url page_id) email api_token
    = Ok response ->
  status_code response <> 200%Z ->
  page_of_response response =
    Ok (VStr (py "Error: " ++ str_of_int (status_code response)
              ++ py " - " ++ text response)) /\
  get_confluence_page_content w page_id confluence_url email api_token =
    Ok (VStr (py "Error: " ++ str_of_int (status_code response)
              ++ py " - " ++ text response)).
Proof.
  intros R N. split; [now apply page_of_failure|now apply fetch_of_failure].
Qed.

(** C7, as the claim states it, fails twice.  For a page without a body the
    content is the string "No content found.", which is not the string
    "no content found"; and for a page whose body is [null] the fetcher raises
    [AttributeError] and returns no pair. *)
Lemma fallback_is_another_string :
  status_code page_without_body = 200%Z /\
  lookup_path [py "body"; py "storage"; py "value"]
    (VDict [(py "title", VStr (py "T"))]) = None /\
  page_of_response page_without_body
    = Ok (VTuple [VStr (py "T"); VStr (py "No content found.")]) /\
  page_of_response page_without_body
    <> Ok (VTuple [VStr (py "T"); VStr (py "no content found")]) /\
  status_code page_with_null_body = 200%Z /\
  page_of_response page_with_null_body = Raise AttributeError.
Proof.
  split; [reflexivity|].
  split; [reflexivity|].
  split; [vm_compute; reflexivity|].
  split; [vm_compute; discriminate|].
  split; [reflexivity|].
  vm_compute. reflexivity.
Qed.

(** C7, amended: for every response of status 200 whose JSON is an object in
    which [body] and [body.storage], when they are there, are objects, the
    fetcher returns the pair of the title ([None] without one) and of the
    value at the path [body.storage.value]; when a part of the path is absent
    the content is the literal "No content found.". *)
Theorem fetch_success_is_a_pair (response : Response) (data : value) :
  status_code response = 200%Z ->
  json response = Ok data ->
  well_shaped data = true ->
  page_of_response response =
  Ok (VTuple
        [or_default (lookup_path [py "title"] data) VNone;
         or_default (lookup_path [py "body"; py "storage"; py "value"] data)
           (VStr (py "No content found."))]).
Proof.
  intros S J W. unfold page_of_response. rewrite S, J. cbn [Z.eqb Pos.eqb bind].
  destruct data as [| | | | | | |items]; try discriminate W.
  unfold well_shaped in W. cbn [dict_or_absent andb lookup_path] in W.
  cbn [get bind lookup_path].
  destruct (dict_get items (py "title")) as [title|];
    (destruct (dict_get items (py "body")) as [body|]; [|reflexivity]);
    (destruct body as [| | | | | | |bitems]; try discriminate W);
    cbn [get bind dict_or_absent andb] in *;
    (destruct (dict_get bitems (py "storage")) as [storage|]; [|reflexivity]);
    (destruct storage as [| | | | | | |sitems]; try discriminate W);
    cbn [get bind]; destruct (dict_get sitems (py "value")); reflexivity.
Qed.

(** ** The request handlers *)

Lemma unpack2_long_string s : length s <> 2 -> unpack2 (VStr s) = Raise ValueError.
Proof.
  destruct s as [|a [|b [|c s]]]; simpl; intros N; try reflexivity.
  contradiction.
Qed.

Lemma error_string_is_long (code body : str) :
  length (py "Error: " ++ code ++ py " - " ++ body) <> 2.
Proof. rewrite length_app. change (length (py "Error: ")) with 7. lia. Qed.

Lemma endpoint_failure w t req e :
  agent_body w req t = Raise e -> endpoint w t req = failure.
Proof.
  intros H. destruct t; unfold endpoint, backend_agent, frontend_agent.
  - now rewrite H.
  - now rewrite H.
Qed.

Lemma endpoint_success w t req response :
  agent_body w req t = Ok response -> endpoint w t req = Return response.
Proof.
  intros H. destruct t; unfold endpoint, backend_agent, frontend_agent.
  - now rewrite H.
  - now rewrite H.
Qed.

Lemma agent_body_fields w req t page_id file_key :
  request_fields req page_id file_key ->
  agent_body w req t = handle_code_review_request w page_id file_key t.
Proof.
  intros (body & -> & P & F). unfold agent_body. simpl. now rewrite P, F.
Qed.

(** A page that is not there makes the destructuring of the handler raise. *)
Lemma handle_fetch_failure w page_id file_key t code_file response :
  retrieve_code_file_from_s3 w file_key = Ok code_file ->
  requests_get w (page_url w (CONFLUENCE_URL w) page_id) (EMAIL w)
    (CONFLUENCE_API_TOKEN w) = Ok response ->
  status_code response <> 200%Z ->
  handle_code_review_request w page_id file_key t = Raise ValueError.
Proof.
  intros S R N. unfold handle_code_review_request. rewrite S.
  rewrite (fetch_of_failure w page_id _ _ _ response R N).
  cbn [bind]. rewrite unpack2_long_string by apply error_string_is_long.
  reflexivity.
Qed.

(** C10: the destructuring [title, content = ...] raises on every string
    whose length is not 2; the string the fetcher returns for a status that
    is not 200 is such a string; so the handler raises and the endpoint
    answers with the one failure response. *)
Theorem fetch_failure_becomes_the_failure_response (w : Services) :
  (forall s, length s <> 2 -> unpack2 (VStr s) = Raise ValueError) /\
  (forall response,
      status_code response <> 200%Z ->
      exists s, page_of_response response = Ok (VStr s) /\ length s <> 2) /\
  (forall req t page_id file_key code_file response,
      request_fields req page_id file_key ->
      retrieve_code_file_from_s3 w file_key = Ok code_file ->
      requests_get w (page_url w (CONFLUENCE_URL w) page_id) (EMAIL w)
        (CONFLUENCE_API_TOKEN w) = Ok response ->
      status_code response <> 200%Z ->
      handle_code_review_request w page_id file_key t = Raise ValueError /\
      endpoint w t req = failure).
Proof.
  split; [exact unpack2_long_string|]. split.
  - intros response N. eexists. split; [now apply page_of_failure|].
    apply error_string_is_long.
  - intros req t page_id file_key code_file response F S R N.
    pose proof (handle_fetch_failure w page_id file_key t code_file response S R N) as H.
    split; [exact H|].
    apply (endpoint_failure w t req ValueError).
    now rewrite (agent_body_fields w req t page_id file_key F).
Qed.

(** ** Every exception of the [try] block comes from a step, and back *)

Lemma handle_unfold w page_id file_key t :
  handle_code_review_request w page_id file_key t =
  (code_file <- retrieve_code_file_from_s3 w file_key ;;
   fetched <- fetch_page w page_id ;;
   ' (title, content) <- unpack2 fetched ;;
   tech_choice_doc <- extract_headers_and_content_of w content ;;
   system_prompt <- substitute w t output_format tech_choice_doc ;;
   model_call w code_file system_prompt).
Proof. reflexivity. Qed.

Ltac raised H e :=
  cbn [bind] in H; injection H as H; subst e.

Lemma agent_body_step w req t e :
  agent_body w req t = Raise e -> step_raises w req t e.
Proof.
  intros H. unfold agent_body in H.
  destruct req as [body|e0]; [|raised H e; now apply raise_body_parsing].
  cbn [bind] in H.
  destruct (get body (py "page_id") VNone) as [page_id|e1] eqn:P;
    [|raised H e; apply (raise_body_fields w _ t _ body eq_refl); now rewrite P].
  cbn [bind] in H.
  destruct (get body (py "file_key") VNone) as [file_key|e2] eqn:K;
    [|raised H e; apply (raise_body_fields w _ t _ body eq_refl); now rewrite P].
  cbn [bind] in H.
  assert (F : request_fields (Ok body) page_id file_key) by (now exists body).
  rewrite handle_unfold in H.
  destruct (retrieve_code_file_from_s3 w file_key) as [code_file|e3] eqn:S;
    [|raised H e; now apply (raise_storage_fetch w _ t _ page_id file_key F)].
  cbn [bind] in H.
  assert (A1 : at_wiki w (Ok body) page_id code_file) by (now exists file_key).
  destruct (fetch_page w page_id) as [fetched|e4] eqn:G;
    [|raised H e; now apply (raise_wiki_fetch w _ t _ page_id code_file A1)].
  cbn [bind] in H.
  destruct (unpack2 fetched) as [[title content]|e5] eqn:U;
    [|raised H e; now apply (raise_destructuring w _ t _ page_id code_file fetched A1)].
  cbn [bind] in H.
  assert (A2 : at_extraction w (Ok body) code_file content)
    by (now exists page_id, fetched, title).
  destruct (extract_headers_and_content_of w content) as [doc|e6] eqn:X;
    [|raised H e; now apply (raise_extraction w _ t _ code_file content A2)].
  cbn [bind] in H.
  assert (A3 : at_prompt w (Ok body) code_file doc) by (now exists content).
  destruct (substitute w t output_format doc) as [prompt|e7] eqn:T;
    [|raised H e; now apply (raise_prompt_assembly w _ t _ code_file doc A3)].
  cbn [bind] in H.
  assert (A4 : at_model w (Ok body) t code_file prompt) by (now exists doc).
  now apply (raise_model_invocation w _ t _ code_file prompt A4).
Qed.

Lemma at_model_body w req t code_file system_prompt :
  at_model w req t code_file system_prompt ->
  agent_body w req t = model_call w code_file system_prompt.
Proof.
  intros (doc & (content & (page_id & fetched & title & (file_key & F & S) & G & U) & X) & T).
  rewrite (agent_body_fields w req t page_id file_key F), handle_unfold.
  rewrite S. cbn [bind]. rewrite G. cbn [bind]. rewrite U. cbn [bind].
  rewrite X. cbn [bind]. rewrite T. reflexivity.
Qed.

Lemma step_agent_body w req t e :
  step_raises w req t e -> agent_body w req t = Raise e.
Proof.
  intros [H
         |body H B
         |page_id file_key F S
         |page_id code_file (file_key & F & S) G
         |page_id code_file fetched (file_key & F & S) G U
         |code_file content (page_id & fetched & title & (file_key & F & S) & G & U) X
         |code_file doc (content & (page_id & fetched & title & (file_key & F & S) & G & U) & X) T
         |code_file prompt A M].
  - unfold agent_body. now rewrite H.
  - unfold agent_body. rewrite H. cbn [bind].
    destruct (get body (py "page_id") VNone) as [page_id|e1]; cbn [bind] in *;
      [|congruence].
    destruct (get body (py "file_key") VNone); [discriminate|]. exact B.
  - rewrite (agent_body_fields w req t page_id file_key F), handle_unfold.
    now rewrite S.
  - rewrite (agent_body_fields w req t page_id file_key F), handle_unfold.
    rewrite S. cbn [bind]. now rewrite G.
  - rewrite (agent_body_fields w req t page_id file_key F), handle_unfold.
    rewrite S. cbn [bind]. rewrite G. cbn [bind]. now rewrite U.
  - rewrite (agent_body_fields w req t page_id file_key F), handle_unfold.
    rewrite S. cbn [bind]. rewrite G. cbn [bind]. rewrite U. cbn [bind].
    now rewrite X.
  - rewrite (agent_body_fields w req t page_id file_key F), handle_unfold.
    rewrite S. cbn [bind]. rewrite G. cbn [bind]. rewrite U. cbn [bind].
    rewrite X. cbn [bind]. now rewrite T.
  - now rewrite (at_model_body w req t code_file prompt A).
Qed.

(** The text a request answers with is the first text of the reply of the
    model. *)
Lemma model_call_text w code_file system_prompt response :
  model_call w code_file system_prompt = Ok response ->
  exists model_id reply,
    converse w model_id (format_message (py "user") code_file)
      (format_prompt system_prompt) inference_config = Ok reply /\
    first_text reply = Ok response.
Proof.
  unfold model_call, generate_output, invoke_bedrock. intros H.
  destruct (getitem (MODEL_IDS w) (py "nova-micro")) as [nova|]; [|discriminate].
  cbn [bind] in H.
  destruct (getitem nova (py "id")) as [model_id|]; [|discriminate].
  cbn [bind] in H. exists model_id.
  destruct (converse w model_id _ _ inference_config) as [reply|]; [|discriminate].
  exists reply. split; [reflexivity|]. cbn [bind] in H.
  repeat match type of H with
         | context [bind (getitem ?a ?b) _] =>
             destruct (getitem a b); cbn [bind] in H; [|discriminate]
         | context [bind (float w ?a) _] =>
             destruct (float w a); cbn [bind] in H; [|discriminate]
         end.
  exact H.
Qed.

(** C8: for each of the two endpoints, an exception raised by any step of
    the request (body parsing, storage fetch, wiki fetch, destructuring,
    extraction, the exception of the parser included, prompt assembly, model
    invocation) is answered with the one
    failure response, status 500 and detail "Something went wrong", whatever
    the step and the exception; every exception of the [try] block is one of
    these; a request whose steps all succeed is answered with the first
    text of the reply of the model, with status 200; and a page that the
    parser rejects is answered with the failure response. *)
Theorem endpoints_answer_every_failure_alike
    (w : Services) (req : Request) (t : template) :
  failure = HTTPException 500 (py "Something went wrong") /\
  (forall e, step_raises w req t e ->
     endpoint w t req = failure /\ http_status (endpoint w t req) = 500%Z) /\
  (forall e, agent_body w req t = Raise e -> step_raises w req t e) /\
  (forall code_file system_prompt response,
     at_model w req t code_file system_prompt ->
     model_call w code_file system_prompt = Ok response ->
     endpoint w t req = Return response /\
     http_status (endpoint w t req) = 200%Z /\
     exists model_id reply,
       converse w model_id (format_message (py "user") code_file)
         (format_prompt system_prompt) inference_config = Ok reply /\
       first_text reply = Ok response) /\
  (endpoint w t req = failure \/ exists response, endpoint w t req = Return response) /\
  (forall code_file markup e,
     at_extraction w req code_file (VStr markup) ->
     BeautifulSoup w markup = Raise e ->
     endpoint w t req = failure).
Proof.
  split; [reflexivity|]. split; [|split; [|split; [|split]]].
  - intros e H. apply step_agent_body in H.
    rewrite (endpoint_failure w t req e H). now split.
  - intros e. apply agent_body_step.
  - intros code_file system_prompt response A M.
    assert (B : agent_body w req t = Ok response)
      by (now rewrite (at_model_body w req t code_file system_prompt A)).
    rewrite (endpoint_success w t req response B).
    split; [reflexivity|]. split; [reflexivity|].
    now apply model_call_text.
  - destruct (agent_body w req t) as [response|e] eqn:B.
    + right. exists response. now apply endpoint_success.
    + left. now apply (endpoint_failure w t req e).
  - intros code_file markup e A P. apply (endpoint_failure w t req e).
    apply step_agent_body.
    apply (raise_extraction w req t e code_file (VStr markup) A).
    unfold extract_headers_and_content_of, extract_headers_and_content.
    now rewrite P.
Qed.

(** ** The theorems at work on the examples *)

Example guidelines_map :
  extract_soup guidelines_page =
  [(py "APIs", py "Use ESM. Use LLRT."); (py "Data", py "Prefer Python.")].
Proof. vm_compute. reflexivity. Qed.

Example blank_middle_map :
  extract_soup blank_middle_page = [(py "A", py "a"); (py "B", py "b")].
Proof. vm_compute. reflexivity. Qed.

Example strip_removes_no_break_space :
  strip ([160; 9] ++ py "a b" ++ [8195; 10])%N = py "a b".
Proof. vm_compute. reflexivity. Qed.

Example str_of_int_examples :
  str_of_int 404 = py "404" /\ str_of_int 0 = py "0" /\ str_of_int (-3) = py "-3".
Proof. vm_compute. repeat split. Qed.

Lemma titled_sections_are_mapped_witness :
  exists d,
    extract_headers_and_content (parse_as guidelines_page) guidelines_markup
      = Ok d /\
    maps_sections guidelines_sections d.
Proof.
  apply (titled_sections_are_mapped (parse_as guidelines_page) guidelines_markup
           guidelines_page [elem "p" "Intro"] guidelines_sections);
    vm_compute; reflexivity.
Defined.

Lemma repeated_header_last_write_wins_witness :
  (exists d,
      extract_headers_and_content (parse_as style_page) style_markup = Ok d /\
      last_write_wins style_sections d (py "Style")) /\
  extract_headers_and_content (parse_as style_page) style_markup
    = Ok [(py "Style", py "Use 2-space indent.")].
Proof.
  assert (N : py "Style" <> []) by (vm_compute; discriminate).
  assert (R : repeated (py "Style") style_sections) by (vm_compute; lia).
  split.
  - exact (proj1 repeated_header_last_write_wins (parse_as style_page)
             style_markup style_page [] style_sections (py "Style")
             eq_refl eq_refl eq_refl eq_refl N R).
  - exact (proj2 repeated_header_last_write_wins (parse_as style_page)
             style_markup eq_refl).
Defined.

Lemma extractor_follows_the_parser_witness :
  extract_headers_and_content (BeautifulSoup demo_services) (py "<h1")
    = Ok [] /\
  extract_headers_and_content (BeautifulSoup demo_services) [] = Ok [] /\
  extract_headers_and_content_of demo_services (VStr style_markup)
    = Ok [(py "Style", py "Use 2-space indent.")] /\
  extract_headers_and_content_of demo_services (VStr rejected_markup)
    = Raise (External (py "ParserRejectedMarkup")).
Proof.
  split; [|split; [|split]].
  - apply (proj2 (proj2 (proj1 (extractor_follows_the_parser demo_services
                                  (py "<h1")) [] eq_refl))).
    reflexivity.
  - apply (proj2 (proj2 (extractor_follows_the_parser demo_services []))).
    reflexivity.
  - exact (proj1 (proj2 (proj1 (extractor_follows_the_parser demo_services
                                  style_markup) style_page eq_refl))).
  - exact (proj2 (proj1 (proj2 (extractor_follows_the_parser demo_services
                                  rejected_markup))
                    (External (py "ParserRejectedMarkup")) eq_refl)).
Defined.

Lemma content_before_first_header_is_dropped_witness :
  extract_headers_and_content (parse_as guidelines_page) guidelines_markup
    = Ok (extract_soup (tl guidelines_page)) /\
  extract_headers_and_content (parse_as [elem "p" "a"; elem "p" "b"])
    (py "<p>a</p><p>b</p>") = Ok [].
Proof.
  split.
  - apply (proj1 (content_before_first_header_is_dropped
                    (parse_as guidelines_page) guidelines_markup)
             [elem "p" "Intro"] (tl guidelines_page));
      vm_compute; reflexivity.
  - apply (proj2 (content_before_first_header_is_dropped
                    (parse_as [elem "p" "a"; elem "p" "b"]) (py "<p>a</p><p>b</p>"))
             [elem "p" "a"; elem "p" "b"]);
      vm_compute; reflexivity.
Defined.

Lemma blank_header_is_no_header_witness :
  extract_headers_and_content (parse_as blank_middle_page) blank_middle_markup
    = Ok [(py "A", py "a"); (py "B", py "b")] /\
  dict_get (extract_soup blank_middle_page) (py "A") = Some (py "a").
Proof.
  destruct (blank_header_is_no_header (parse_as blank_middle_page)
              blank_middle_markup blank_middle_page eq_refl)
    as (E & _ & V & G & _).
  split.
  - rewrite E.
    rewrite (G [elem "h1" "A"; elem "p" "a"] (elem "h2" " ") [elem "p" "dropped"]
               [elem "h3" "B"; elem "p" "b"] eq_refl eq_refl eq_refl eq_refl).
    vm_compute. reflexivity.
  - apply (V [] (elem "h1" "A") [elem "p" "a"] (elem "h2" " ")
             [elem "p" "dropped"] [elem "h3" "B"; elem "p" "b"]).
    + reflexivity.
    + vm_compute. reflexivity.
    + vm_compute. reflexivity.
    + vm_compute. discriminate.
    + vm_compute. reflexivity.
    + vm_compute. reflexivity.
    + vm_compute. reflexivity.
    + intros t [<-|[<-|[]]] _; vm_compute; discriminate.
Defined.

Lemma bare_header_maps_to_empty_witness :
  exists d,
    extract_headers_and_content (parse_as bare_first_page) bare_first_markup
      = Ok d /\
    dict_get d (py "A") = Some [].
Proof.
  apply (bare_header_maps_to_empty (parse_as bare_first_page) bare_first_markup
           bare_first_page [] [] (elem "h1" "A") [(elem "h2" "B", [elem "p" "x"])]).
  - reflexivity.
  - vm_compute. reflexivity.
  - reflexivity.
  - vm_compute. reflexivity.
  - vm_compute. discriminate.
  - vm_compute. intros [H|[]]. discriminate H.
Defined.

Lemma fetch_failure_is_a_string_witness :
  get_confluence_page_content demo_services (VStr (py "7"))
    (CONFLUENCE_URL demo_services) (EMAIL demo_services)
    (CONFLUENCE_API_TOKEN demo_services)
  = Ok (VStr (py "Error: 404 - Not Found")).
Proof.
  assert (N : status_code demo_missing <> 200%Z) by (vm_compute; discriminate).
  exact (proj2 (fetch_failure_is_a_string demo_services (VStr (py "7"))
                  (CONFLUENCE_URL demo_services) (EMAIL demo_services)
                  (CONFLUENCE_API_TOKEN demo_services) demo_missing eq_refl N)).
Defined.

Lemma fetch_success_is_a_pair_witness :
  page_of_response demo_page
    = Ok (VTuple [VStr (py "Guidelines"); VStr style_markup]) /\
  page_of_response page_without_body
    = Ok (VTuple [VStr (py "T"); VStr (py "No content found.")]).
Proof.
  split.
  - exact (fetch_success_is_a_pair demo_page _ eq_refl eq_refl eq_refl).
  - exact (fetch_success_is_a_pair page_without_body _ eq_refl eq_refl eq_refl).
Defined.

Lemma demo_request_fields page_id :
  request_fields (demo_request page_id) (VStr (py page_id)) (VStr (py "review.js")).
Proof.
  eexists. split; [reflexivity|]. split; reflexivity.
Defined.

Lemma fetch_failure_becomes_the_failure_response_witness :
  handle_code_review_request demo_services (VStr (py "7")) (VStr (py "review.js"))
    agent_backend_system_prompt_template = Raise ValueError /\
  endpoint demo_services agent_backend_system_prompt_template (demo_request "7")
    = failure.
Proof.
  assert (N : status_code demo_missing <> 200%Z) by (vm_compute; discriminate).
  exact (proj2 (proj2 (fetch_failure_becomes_the_failure_response demo_services))
           (demo_request "7") agent_backend_system_prompt_template
           (VStr (py "7")) (VStr (py "review.js")) (py "console.log('x')")
           demo_missing (demo_request_fields "7") eq_refl eq_refl N).
Defined.

Lemma demo_at_model t :
  at_model demo_services (demo_request "42") t (py "console.log('x')") (py "prompt").
Proof.
  exists (extract_soup style_page). split; [|reflexivity].
  exists (VStr style_markup). split; [|vm_compute; reflexivity].
  exists (VStr (py "42")), (VTuple [VStr (py "Guidelines"); VStr style_markup]),
    (VStr (py "Guidelines")).
  split; [|split; [vm_compute; reflexivity|reflexivity]].
  exists (VStr (py "review.js")). split; [apply demo_request_fields|reflexivity].
Defined.

Lemma demo_at_rejected_page :
  at_extraction demo_services (demo_request "13") (py "console.log('x')")
    (VStr rejected_markup).
Proof.
  exists (VStr (py "13")), (VTuple [VStr (py "Broken"); VStr rejected_markup]),
    (VStr (py "Broken")).
  split; [|split; [vm_compute; reflexivity|reflexivity]].
  exists (VStr (py "review.js")). split; [apply demo_request_fields|reflexivity].
Defined.

Lemma endpoints_answer_every_failure_alike_witness :
  endpoint demo_services agent_frontend_system_prompt_template
    (Raise (External (py "JSONDecodeError"))) = failure /\
  endpoint demo_services agent_backend_system_prompt_template
    (Ok (VDict [(py "page_id", VStr (py "42")); (py "file_key", VNone)])) = failure /\
  endpoint demo_services agent_frontend_system_prompt_template (demo_request "13")
    = failure /\
  endpoint demo_services agent_backend_system_prompt_template (demo_request "42")
    = Return (VStr (py "APIs: 1. Pass")) /\
  http_status (endpoint demo_services agent_frontend_system_prompt_template
                 (demo_request "42")) = 200%Z.
Proof.
  split; [|split; [|split; [|split]]].
  - apply (proj1 (proj2 (endpoints_answer_every_failure_alike demo_services
                           (Raise (External (py "JSONDecodeError")))
                           agent_frontend_system_prompt_template))
             (External (py "JSONDecodeError"))).
    now apply raise_body_parsing.
  - apply (proj1 (proj2 (endpoints_answer_every_failure_alike demo_services _
                           agent_backend_system_prompt_template))
             (External (py "ParamValidationError"))).
    apply (raise_storage_fetch demo_services _ _ _ (VStr (py "42")) VNone).
    + eexists. split; [reflexivity|]. split; reflexivity.
    + reflexivity.
  - apply (proj2 (proj2 (proj2 (proj2 (proj2
             (endpoints_answer_every_failure_alike demo_services
                (demo_request "13") agent_frontend_system_prompt_template)))))
             (py "console.log('x')") rejected_markup
             (External (py "ParserRejectedMarkup")) demo_at_rejected_page).
    vm_compute. reflexivity.
  - apply (proj1 (proj2 (proj2 (proj2
             (endpoints_answer_every_failure_alike demo_services (demo_request "42")
                agent_backend_system_prompt_template))))
             (py "console.log('x')") (py "prompt") (VStr (py "APIs: 1. Pass"))
             (demo_at_model _)).
    vm_compute. reflexivity.
  - apply (proj1 (proj2 (proj2 (proj2
             (endpoints_answer_every_failure_alike demo_services (demo_request "42")
                agent_frontend_system_prompt_template))))
             (py "console.log('x')") (py "prompt") (VStr (py "APIs: 1. Pass"))
             (demo_at_model _)).
    vm_compute. reflexivity.
Defined.


(** * Further properties of the program *)

(** ** White space *)

Lemma lstrip_fixed s : starts_clean s = true -> lstrip s = s.
Proof.
  destruct s as [|c s]; simpl; [reflexivity|].
  now destruct (isspace c).
Qed.

Lemma starts_clean_lstrip s : starts_clean (lstrip s) = true.
Proof.
  induction s as [|c s IH]; simpl; [reflexivity|].
  destruct (isspace c) eqn:E; [exact IH|]. simpl. now rewrite E.
Qed.

(** [lstrip] drops a prefix. *)
Lemma lstrip_suffix s : exists w, s = w ++ lstrip s.
Proof.
  induction s as [|c s [w IH]]; simpl; [now exists []|].
  destruct (isspace c).
  - exists (c :: w). simpl. now rewrite <- IH.
  - now exists [].
Qed.

(** [rstrip] drops a suffix. *)
Lemma rstrip_prefix s : exists w, s = rstrip s ++ w.
Proof.
  unfold rstrip. destruct (lstrip_suffix (rev s)) as [w E].
  exists (rev w). rewrite <- rev_app_distr, <- E. now rewrite rev_involutive.
Qed.

Lemma starts_clean_prefix p w : starts_clean (p ++ w) = true -> starts_clean p = true.
Proof. destruct p; simpl; auto. Qed.

Lemma trimmed_strip s : trimmed (strip s) = true.
Proof.
  unfold trimmed, strip. apply andb_true_iff. split.
  - destruct (rstrip_prefix (lstrip s)) as [w E].
    apply (starts_clean_prefix _ w). rewrite <- E. apply starts_clean_lstrip.
  - unfold rstrip. rewrite rev_involutive. apply starts_clean_lstrip.
Qed.

Lemma strip_fixed s : trimmed s = true -> strip s = s.
Proof.
  unfold trimmed, strip, rstrip. intros H. apply andb_true_iff in H as [A B].
  rewrite (lstrip_fixed s A), (lstrip_fixed _ B). apply rev_involutive.
Qed.

Lemma strip_idempotent s : strip (strip s) = strip s.
Proof. apply strip_fixed, trimmed_strip. Qed.

(** ** More on dictionaries *)

Section DictLaws.
Context {V : Type}.
Implicit Types (d m : dict V) (k : str) (v : V).

Lemma member_In k (ks : list str) : member k ks = true <-> In k ks.
Proof.
  unfold member. rewrite existsb_exists. split.
  - intros (x & I & E). unfold str_eqb in E.
    destruct (str_eq_dec k x); [now subst|discriminate].
  - intros I. exists k. split; [exact I|]. unfold str_eqb.
    now destruct (str_eq_dec k k).
Qed.

Lemma keys_dict_set d k v : keys (dict_set d k v) = add_key (keys d) k.
Proof.
  unfold add_key. destruct (member k (keys d)) eqn:M.
  - apply dict_set_present. now apply member_In.
  - rewrite dict_set_absent.
    + unfold keys. now rewrite map_app.
    + intros I. apply member_In in I. congruence.
Qed.

Lemma keys_dict_update es : forall d,
  keys (dict_update d es) = fold_left add_key (map fst es) (keys d).
Proof.
  induction es as [|e es IH]; intros d; [reflexivity|].
  simpl. now rewrite IH, keys_dict_set.
Qed.

Lemma in_dict_set d k v e : In e (dict_set d k v) -> In e d \/ e = (k, v).
Proof.
  induction d as [|[k0 v0] d IH]; simpl.
  - intros [<-|[]]. now right.
  - destruct (str_eq_dec k0 k) as [->|N]; simpl.
    + intros [<-|I]; [now right|left; now right].
    + intros [<-|I]; [left; now left|].
      destruct (IH I) as [H|H]; [left; now right|now right].
Qed.

Lemma in_dict_update es : forall d e,
  In e (dict_update d es) -> In e d \/ In e es.
Proof.
  induction es as [|e0 es IH]; simpl; intros d e I; [now left|].
  destruct (IH _ _ I) as [H|H]; [|right; now right].
  destruct (in_dict_set _ _ _ _ H) as [H' | ->]; [now left|].
  right. left. now destruct e0.
Qed.

Lemma dict_set_twice d k v v' : dict_set (dict_set d k v) k v' = dict_set d k v'.
Proof.
  induction d as [|[k0 v0] d IH]; simpl.
  - now destruct (str_eq_dec k k).
  - destruct (str_eq_dec k0 k) as [E|N]; simpl.
    + now destruct (str_eq_dec k0 k).
    + destruct (str_eq_dec k0 k); [contradiction|]. now rewrite IH.
Qed.

(** Assignments to two keys commute when one of the keys is there already. *)
Lemma dict_set_commute d k v k1 v1 :
  In k (keys d) -> k1 <> k ->
  dict_set (dict_set d k1 v1) k v = dict_set (dict_set d k v) k1 v1.
Proof.
  induction d as [|[x y] d IH]; simpl; [tauto|]. intros I N.
  destruct (str_eq_dec x k1) as [E1|N1]; destruct (str_eq_dec x k) as [E|N0]; simpl.
  - congruence.
  - destruct (str_eq_dec x k); [contradiction|].
    destruct (str_eq_dec x k1); [reflexivity|contradiction].
  - destruct (str_eq_dec x k); [|contradiction].
    destruct (str_eq_dec x k1); [contradiction|reflexivity].
  - destruct (str_eq_dec x k); [contradiction|].
    destruct (str_eq_dec x k1); [contradiction|].
    f_equal. apply IH; [|exact N]. destruct I; [contradiction|assumption].
Qed.

Lemma dict_set_update_commute es : forall d k v,
  In k (keys d) -> ~ In k (map fst es) ->
  dict_set (dict_update d es) k v = dict_update (dict_set d k v) es.
Proof.
  induction es as [|[k1 v1] es IH]; simpl; intros d k v I N; [reflexivity|].
  rewrite IH.
  - rewrite dict_set_commute; [reflexivity|exact I|tauto].
  - apply in_keys_set. now right.
  - tauto.
Qed.

(** Updating with a dictionary in which a key was assigned is updating with
    the dictionary, then assigning the key. *)
Lemma dict_update_set m : forall d k v,
  NoDup (keys m) ->
  dict_update d (dict_set m k v) = dict_set (dict_update d m) k v.
Proof.
  induction m as [|[k0 v0] m IH]; intros d k v ND; [reflexivity|].
  simpl in ND. inversion ND as [|? ? Hk ND']; subst. simpl.
  destruct (str_eq_dec k0 k) as [->|N]; simpl.
  - rewrite dict_set_update_commute; [|apply in_keys_set; now left|exact Hk].
    now rewrite dict_set_twice.
  - now apply IH.
Qed.

(** Updating with the entries, or with the dictionary made of them. *)
Lemma dict_update_normal es : forall d,
  dict_update d (dict_update [] es) = dict_update d es.
Proof.
  induction es as [|e es IH] using rev_ind; intros d; [reflexivity|].
  rewrite !dict_update_app. simpl.
  rewrite dict_update_set by (apply NoDup_keys_update; constructor).
  now rewrite IH.
Qed.
End DictLaws.

(** ** Every document *)

Lemma sections_of_spec l :
  forallb (fun t => is_header t || is_paragraph t) l = true ->
  l = fst (sections_of l) ++ elements (snd (sections_of l)) /\
  forallb is_paragraph (fst (sections_of l)) = true /\
  forallb well_formed (snd (sections_of l)) = true /\
  map fst (snd (sections_of l)) = filter is_header l.
Proof.
  induction l as [|t l IH]; simpl; [now repeat split|].
  intros H. apply andb_true_iff in H as [Ht Hl].
  destruct (IH Hl) as (E & P & W & F). clear IH.
  destruct (sections_of l) as [pre secs]. simpl in *.
  destruct (is_header t) eqn:Hd; simpl in *.
  - split; [now rewrite E at 1|]. split; [reflexivity|]. split.
    + rewrite W. unfold well_formed. simpl. now rewrite Hd, P.
    + now rewrite F.
  - split; [now rewrite E at 1|]. split; [now rewrite Ht, P|]. now split.
Qed.

Lemma find_all_recognised s :
  forallb (fun t => is_header t || is_paragraph t) (find_all recognised_names s)
  = true.
Proof.
  apply forallb_forall. intros t I. apply filter_In in I as [_ M].
  now rewrite <- member_recognised.
Qed.

Lemma filter_header_find_all s :
  filter is_header (find_all recognised_names s) = filter is_header s.
Proof.
  induction s as [|t s IH]; [reflexivity|].
  unfold find_all in *. cbn [filter]. rewrite member_recognised.
  destruct (is_header t) eqn:H; cbn [orb filter].
  - rewrite H. now rewrite IH.
  - destruct (is_paragraph t); cbn [filter]; [rewrite H|]; exact IH.
Qed.


Lemma extract_document s :
  extract_soup s =
  dict_update []
    (map entry (filter (fun x => nonempty (header_text x)) (document_sections s))).
Proof.
  destruct (sections_of_spec _ (find_all_recognised s)) as (E & P & W & _).
  exact (extract_update s _ _ E P W).
Qed.

Lemma titled_keys secs :
  map fst (map entry (filter (fun x => nonempty (header_text x)) secs)) =
  filter nonempty (map (fun t => strip (get_text t)) (map fst secs)).
Proof.
  induction secs as [|x secs IH]; [reflexivity|].
  cbn [filter map]. fold (header_text x).
  destruct (nonempty (header_text x)); cbn [map fst entry]; now rewrite IH.
Qed.

Lemma document_keys s :
  map fst (map entry (filter (fun x => nonempty (header_text x))
                        (document_sections s))) = header_texts s.
Proof.
  rewrite titled_keys. unfold document_sections, header_texts.
  destruct (sections_of_spec _ (find_all_recognised s)) as (_ & _ & _ & F).
  now rewrite F, filter_header_find_all.
Qed.

Lemma in_header_texts s k :
  In k (header_texts s) <->
  k <> [] /\ exists t, In t s /\ is_header t = true /\ strip (get_text t) = k.
Proof.
  unfold header_texts. rewrite filter_In, in_map_iff, nonempty_true. split.
  - intros [(t & <- & I) N]. apply filter_In in I as [I H].
    split; [exact N|]. now exists t.
  - intros (N & t & I & H & <-). split; [|exact N].
    exists t. split; [reflexivity|]. now apply filter_In.
Qed.

(** X1: whatever the document, the Section Map has no key twice, its keys
    are the trimmed texts, the empty one apart, of the header elements of the
    document, and it has no more entries than the document has header
    elements. *)
Theorem section_map_keys (s : soup) :
  NoDup (keys (extract_soup s)) /\
  (forall k, In k (keys (extract_soup s)) <->
             k <> [] /\
             exists t, In t s /\ is_header t = true /\ strip (get_text t) = k) /\
  length (extract_soup s) <= length (filter is_header s).
Proof.
  rewrite extract_document. split; [|split].
  - apply NoDup_keys_update. constructor.
  - intros k. rewrite in_keys_update, document_keys, in_header_texts.
    simpl. tauto.
  - pose proof (length_update
                  (map entry (filter (fun x => nonempty (header_text x))
                                (document_sections s))) []) as L.
    rewrite length_map in L. simpl in L.
    pose proof (filter_length_le (fun x => nonempty (header_text x))
                  (document_sections s)) as L'.
    assert (E : length (document_sections s) = length (filter is_header s)).
    { unfold document_sections.
      destruct (sections_of_spec _ (find_all_recognised s)) as (_ & _ & _ & F).
      now rewrite <- filter_header_find_all, <- F, length_map. }
    lia.
Qed.

Lemma keys_of_document (s : soup) :
  keys (extract_soup s) = first_occurrences (header_texts s).
Proof.
  rewrite extract_document, keys_dict_update, document_keys. reflexivity.
Qed.

(** X2: the keys of the Section Map come in the order in which the header
    texts first occur in the document. *)
Theorem section_map_key_order (s : soup) :
  keys (extract_soup s) = first_occurrences (header_texts s).
Proof.
  rewrite extract_document, keys_dict_update.
  unfold first_occurrences. now rewrite document_keys.
Qed.

(** X3: a key of the Section Map is not empty, and neither a key nor a value
    starts or ends with white space: [strip] leaves them as they are. *)
Theorem section_map_is_trimmed (s : soup) (k v : str) :
  In (k, v) (extract_soup s) ->
  k <> [] /\ strip k = k /\ strip v = v.
Proof.
  rewrite extract_document. intros I.
  apply in_dict_update in I as [[]|I].
  apply in_map_iff in I as (x & E & I). apply filter_In in I as [_ N].
  injection E as <- <-. split; [now apply nonempty_true|].
  split; apply strip_idempotent.
Qed.

(** X4: a header element starts afresh: the Section Map of a document is the
    map of the part before a header element, updated with the map of the
    part from this header on. *)
Theorem section_map_across_header (s1 : soup) (h : Tag) (s2 : soup) :
  is_header h = true ->
  extract_soup (s1 ++ h :: s2) =
  dict_update (extract_soup s1) (extract_soup (h :: s2)).
Proof.
  intros H.
  assert (M : member (name h) recognised_names = true)
    by (rewrite member_recognised, H; reflexivity).
  destruct (sections_of_spec _ (find_all_recognised s1)) as (E1 & P1 & W1 & _).
  destruct (sections_of_spec _ (find_all_recognised s2)) as (E2 & P2 & W2 & _).
  destruct (sections_of (find_all recognised_names s1)) as [pre1 secs1].
  destruct (sections_of (find_all recognised_names s2)) as [pre2 secs2].
  cbn [fst snd] in *.
  assert (W : forallb well_formed ((h, pre2) :: secs2) = true).
  { simpl. unfold well_formed at 1. simpl. now rewrite H, P2, W2. }
  assert (F2 : find_all recognised_names (h :: s2)
               = [] ++ elements ((h, pre2) :: secs2)).
  { unfold find_all in *. cbn [filter]. rewrite M, E2. reflexivity. }
  assert (F : find_all recognised_names (s1 ++ h :: s2)
              = pre1 ++ elements (secs1 ++ (h, pre2) :: secs2)).
  { assert (A : elements (secs1 ++ (h, pre2) :: secs2)
                = elements secs1 ++ elements ((h, pre2) :: secs2))
      by apply flat_map_app.
    rewrite A, app_assoc, <- E1. change (elements ((h, pre2) :: secs2))
      with ([] ++ elements ((h, pre2) :: secs2)). rewrite <- F2.
    apply filter_app. }
  rewrite (extract_update _ _ _ F P1).
  2:{ rewrite forallb_app, W1. exact W. }
  rewrite (extract_update _ _ _ F2 eq_refl W), (extract_update _ _ _ E1 P1 W1).
  rewrite filter_app, map_app, dict_update_app.
  now rewrite dict_update_normal.
Qed.

(** ** Values without blank paragraphs *)

Lemma starts_clean_app a b : a <> [] -> starts_clean (a ++ b) = starts_clean a.
Proof. destruct a; simpl; congruence. Qed.

Lemma join_head sep x rest :
  x <> [] -> starts_clean (join sep (x :: rest)) = starts_clean x.
Proof.
  intros N. destruct rest; [reflexivity|].
  cbn [join]. now apply starts_clean_app.
Qed.

Lemma join_snoc sep l y :
  l <> [] -> join sep (l ++ [y]) = join sep l ++ sep ++ y.
Proof.
  induction l as [|x l IH]; [congruence|]. intros _.
  destruct l as [|x2 l]; [reflexivity|].
  change (join sep ((x :: x2 :: l) ++ [y]))
    with (x ++ sep ++ join sep ((x2 :: l) ++ [y])).
  rewrite IH by discriminate.
  change (join sep (x :: x2 :: l)) with (x ++ sep ++ join sep (x2 :: l)).
  now rewrite <- !app_assoc.
Qed.

Lemma join_last sep l y :
  y <> [] ->
  starts_clean (rev (join sep (l ++ [y]))) = starts_clean (rev y).
Proof.
  intros N.
  assert (R : rev y <> []).
  { intros E. apply N. rewrite <- (rev_involutive y), E. reflexivity. }
  destruct l as [|x l]; [reflexivity|].
  rewrite join_snoc by discriminate.
  rewrite !rev_app_distr, <- app_assoc. now apply starts_clean_app.
Qed.

Lemma trimmed_join sep (texts : list str) :
  Forall (fun x => x <> [] /\ trimmed x = true) texts ->
  trimmed (join sep texts) = true.
Proof.
  intros F. destruct texts as [|x rest]; [reflexivity|].
  unfold trimmed. apply andb_true_iff. split.
  - inversion F as [|? ? [N T] _]; subst.
    rewrite join_head by exact N.
    unfold trimmed in T. now apply andb_true_iff in T.
  - destruct (exists_last (l := x :: rest)) as (l & y & E); [discriminate|].
    rewrite E in *. apply Forall_app in F as [_ F].
    inversion F as [|? ? [N T] _]; subst.
    rewrite join_last by exact N.
    unfold trimmed in T. now apply andb_true_iff in T.
Qed.

Lemma paragraphs_text_join ps :
  forallb (fun p => nonempty (strip (get_text p))) ps = true ->
  paragraphs_text ps = join (py " ") (map (fun p => strip (get_text p)) ps).
Proof.
  intros H. unfold paragraphs_text. apply strip_fixed, trimmed_join.
  apply Forall_forall. intros x I. apply in_map_iff in I as (p & <- & I).
  split; [|apply trimmed_strip].
  apply nonempty_true. rewrite forallb_forall in H. now apply H.
Qed.

(** X6: when no paragraph of a section is blank, the value of its header is
    exactly the trimmed texts of the paragraphs with one space between two of
    them: the final [strip] has nothing to remove. *)
Theorem value_is_the_joined_paragraphs
    (BeautifulSoup : str -> result soup) (content : str)
    parsed pre before sec after :
  BeautifulSoup content = Ok parsed ->
  find_all recognised_names parsed
    = pre ++ elements (before ++ sec :: after) ->
  forallb is_paragraph pre = true ->
  forallb well_formed (before ++ sec :: after) = true ->
  header_text sec <> [] ->
  ~ In (header_text sec) (map header_text after) ->
  forallb (fun p => nonempty (strip (get_text p))) (snd sec) = true ->
  exists d,
    extract_headers_and_content BeautifulSoup content = Ok d /\
    dict_get d (header_text sec)
    = Some (join (py " ") (map (fun p => strip (get_text p)) (snd sec))).
Proof.
  intros P E Hpre Hsecs N L B. unfold extract_headers_and_content.
  rewrite P. cbn [bind]. eexists. split; [reflexivity|].
  rewrite (extract_last_section _ pre before sec after E Hpre Hsecs N L).
  unfold section_text. now rewrite paragraphs_text_join.
Qed.

(** ** More on the document fetcher *)

Lemma page_of_success (response : Response) (data : value) :
  status_code response = 200%Z ->
  json response = Ok data ->
  well_shaped data = true ->
  page_of_response response =
  Ok (VTuple
        [or_default (lookup_path [py "title"] data) VNone;
         or_default (lookup_path [py "body"; py "storage"; py "value"] data)
           (VStr (py "No content found."))]).
Proof.
  intros S J W. unfold page_of_response. rewrite S, J. cbn [Z.eqb Pos.eqb bind].
  destruct data as [| | | | | | |items]; try discriminate W.
  unfold well_shaped in W. cbn [dict_or_absent andb lookup_path] in W.
  cbn [get bind lookup_path].
  destruct (dict_get items (py "title")) as [title|];
    (destruct (dict_get items (py "body")) as [body|]; [|reflexivity]);
    (destruct body as [| | | | | | |bitems]; try discriminate W);
    cbn [get bind dict_or_absent andb] in *;
    (destruct (dict_get bitems (py "storage")) as [storage|]; [|reflexivity]);
    (destruct storage as [| | | | | | |sitems]; try discriminate W);
    cbn [get bind]; destruct (dict_get sitems (py "value")); reflexivity.
Qed.

Lemma page_of_ill_shaped (response : Response) (data : value) :
  status_code response = 200%Z ->
  json response = Ok data ->
  well_shaped data = false ->
  page_of_response response = Raise AttributeError.
Proof.
  intros S J W. unfold page_of_response. rewrite S, J. cbn [Z.eqb Pos.eqb bind].
  destruct data as [| | | | | | |items]; try reflexivity.
  unfold well_shaped in W. cbn [dict_or_absent andb lookup_path] in W.
  cbn [get bind].
  destruct (dict_get items (py "body")) as [body|]; [|discriminate W].
  destruct body as [| | | | | | |bitems]; try reflexivity.
  cbn [get bind dict_or_absent andb] in *.
  destruct (dict_get bitems (py "storage")) as [storage|]; [|discriminate W].
  destruct storage as [| | | | | | |sitems]; try reflexivity.
  discriminate W.
Qed.

(** X7: what the fetcher returns tells the two outcomes apart by its type
    alone: a tuple of two items for the status 200, a string that starts with
    "Error: " for every other status. *)
Theorem fetch_result_shape (response : Response) (v : value) :
  page_of_response response = Ok v ->
  (status_code response = 200%Z /\ exists title content, v = VTuple [title; content])
  \/
  (status_code response <> 200%Z /\ exists rest, v = VStr (py "Error: " ++ rest)).
Proof.
  intros H. destruct (Z.eq_dec (status_code response) 200) as [S|N].
  - left. split; [exact S|].
    destruct (json response) as [data|e] eqn:J.
    + destruct (well_shaped data) eqn:W.
      * rewrite (page_of_success response data S J W) in H.
        injection H as <-. do 2 eexists. reflexivity.
      * rewrite (page_of_ill_shaped response data S J W) in H. discriminate.
    + unfold page_of_response in H. rewrite S, J in H. discriminate.
  - right. split; [exact N|].
    rewrite (page_of_failure response N) in H. injection H as <-.
    eexists. reflexivity.
Qed.

(** X8: for the status 200 the fetcher returns exactly when the response
    decodes to a JSON object whose [body] and [body.storage], if there, are
    objects; it raises the exception of the decoder when the response is no
    JSON, and [AttributeError] when the JSON has another shape. *)
Theorem fetch_of_success_raises (response : Response) :
  status_code response = 200%Z ->
  (forall e, json response = Raise e -> page_of_response response = Raise e) /\
  (forall data, json response = Ok data -> well_shaped data = false ->
                page_of_response response = Raise AttributeError) /\
  ((exists v, page_of_response response = Ok v) <->
   (exists data, json response = Ok data /\ well_shaped data = true)).
Proof.
  intros S. split; [|split].
  - intros e J. unfold page_of_response. now rewrite S, J.
  - intros data J W. now apply (page_of_ill_shaped response data).
  - split.
    + intros [v H]. destruct (json response) as [data|e] eqn:J.
      * exists data. split; [reflexivity|].
        destruct (well_shaped data) eqn:W; [reflexivity|].
        rewrite (page_of_ill_shaped response data S J W) in H. discriminate.
      * unfold page_of_response in H. rewrite S, J in H. discriminate.
    + intros (data & J & W). eexists. now apply (page_of_success response data).
Qed.

(** ** The model invoker *)

Lemma getitem_lookup2 r a b u x :
  getitem r a = Ok u -> getitem u b = Ok x -> lookup_path [a; b] r = Some x.
Proof.
  destruct r as [| | | | | | |items]; try discriminate. cbn [getitem lookup_path].
  destruct (dict_get items a) as [u'|]; [|discriminate]. intros E. injection E as ->.
  destruct u as [| | | | | | |uitems]; try discriminate. cbn [getitem].
  destruct (dict_get uitems b) as [x'|]; [|discriminate]. intros E. now injection E as ->.
Qed.

Lemma lookup2_getitem r a b x :
  lookup_path [a; b] r = Some x ->
  exists u, getitem r a = Ok u /\ getitem u b = Ok x.
Proof.
  destruct r as [| | | | | | |items]; try discriminate. cbn [getitem lookup_path].
  destruct (dict_get items a) as [u|]; [|discriminate].
  destruct u as [| | | | | | |uitems]; try discriminate.
  destruct (dict_get uitems b) as [x'|] eqn:E; [|discriminate].
  intros H. injection H as ->. eexists. split; [reflexivity|].
  cbn [getitem]. now rewrite E.
Qed.

(** X9: [invoke_bedrock] returns exactly when the model service returns a
    reply that carries the three token counts under [usage] and the latency
    under [metrics], each accepted by [float]; it then returns the reply as
    it is, with the four numbers under the keys [input_tokens],
    [output_tokens], [total_tokens] and [latency]. *)
Theorem invoke_bedrock_returns
    (w : Services) (model_id messages system_prompt reply meta : value) :
  invoke_bedrock w model_id messages system_prompt = Ok (reply, meta) <->
  converse w model_id messages system_prompt inference_config = Ok reply /\
  exists i o t l fi fo ft fl,
    lookup_path [py "usage"; py "inputTokens"] reply = Some i /\
    float w i = Ok fi /\
    lookup_path [py "usage"; py "outputTokens"] reply = Some o /\
    float w o = Ok fo /\
    lookup_path [py "usage"; py "totalTokens"] reply = Some t /\
    float w t = Ok ft /\
    lookup_path [py "metrics"; py "latencyMs"] reply = Some l /\
    float w l = Ok fl /\
    meta = VDict [(py "input_tokens", fi); (py "output_tokens", fo);
                  (py "total_tokens", ft); (py "latency", fl)].
Proof.
  unfold invoke_bedrock. split.
  - intros H.
    destruct (converse w model_id messages system_prompt inference_config)
      as [r|]; cbn [bind] in H; [|discriminate].
    destruct (getitem r (py "usage")) as [u|] eqn:U; cbn [bind] in H; [|discriminate].
    destruct (getitem u (py "inputTokens")) as [i|] eqn:I;
      cbn [bind] in H; [|discriminate].
    destruct (float w i) as [fi|] eqn:FI; cbn [bind] in H; [|discriminate].
    destruct (getitem u (py "outputTokens")) as [o|] eqn:O;
      cbn [bind] in H; [|discriminate].
    destruct (float w o) as [fo|] eqn:FO; cbn [bind] in H; [|discriminate].
    destruct (getitem u (py "totalTokens")) as [t|] eqn:T;
      cbn [bind] in H; [|discriminate].
    destruct (float w t) as [ft|] eqn:FT; cbn [bind] in H; [|discriminate].
    destruct (getitem r (py "metrics")) as [m|] eqn:M; cbn [bind] in H; [|discriminate].
    destruct (getitem m (py "latencyMs")) as [l|] eqn:L;
      cbn [bind] in H; [|discriminate].
    destruct (float w l) as [fl|] eqn:FL; cbn [bind] in H; [|discriminate].
    injection H as -> <-. split; [reflexivity|].
    exists i, o, t, l, fi, fo, ft, fl.
    rewrite (getitem_lookup2 _ _ _ _ _ U I), (getitem_lookup2 _ _ _ _ _ U O),
      (getitem_lookup2 _ _ _ _ _ U T), (getitem_lookup2 _ _ _ _ _ M L).
    repeat (split; [first [reflexivity|assumption]|]). reflexivity.
  - intros (C & i & o & t & l & fi & fo & ft & fl
            & I & FI & O & FO & T & FT & L & FL & ->).
    apply lookup2_getitem in I as (u & U & I).
    apply lookup2_getitem in O as (u1 & U1 & O).
    apply lookup2_getitem in T as (u2 & U2 & T).
    apply lookup2_getitem in L as (m & M & L).
    rewrite U in U1, U2. injection U1 as <-. injection U2 as <-.
    rewrite C. cbn [bind]. rewrite U. cbn [bind]. rewrite I. cbn [bind].
    rewrite FI. cbn [bind]. rewrite O. cbn [bind]. rewrite FO. cbn [bind].
    rewrite T. cbn [bind]. rewrite FT. cbn [bind]. rewrite M. cbn [bind].
    rewrite L. cbn [bind]. rewrite FL. reflexivity.
Qed.

(** X10: the usage numbers are not returned to the caller, yet a reply
    without them is an error: when the reply of the model service is an
    object without [usage], [generate_output] raises [KeyError], and when it
    is no object at all, [TypeError], whatever text the reply carries. *)
Theorem reply_without_usage_is_an_error
    (w : Services) (model_id system_prompt messages reply : value) :
  converse w model_id messages system_prompt inference_config = Ok reply ->
  (lookup_path [py "usage"] reply = None ->
   dict_or_absent (Some reply) = true ->
   generate_output w model_id system_prompt messages = Raise KeyError) /\
  (dict_or_absent (Some reply) = false ->
   generate_output w model_id system_prompt messages = Raise TypeError).
Proof.
  intros C. unfold generate_output, invoke_bedrock. rewrite C. cbn [bind]. split.
  - intros U D. destruct reply as [| | | | | | |items]; try discriminate D.
    cbn [lookup_path getitem] in *.
    destruct (dict_get items (py "usage")); [discriminate U|reflexivity].
  - intros D. destruct reply as [| | | | | | |items]; try reflexivity.
    discriminate D.
Qed.

Lemma first_text_of_content (reply c : value) :
  lookup_path [py "output"; py "message"; py "content"] reply = Some c ->
  first_text reply = (first <- getitem_int c 0 ;; getitem first (py "text")).
Proof.
  intros H. unfold first_text.
  destruct reply as [| | | | | | |items]; try discriminate H.
  cbn [lookup_path getitem] in *.
  destruct (dict_get items (py "output")) as [out|]; [|discriminate H].
  destruct out as [| | | | | | |oitems]; try discriminate H.
  cbn [bind getitem].
  destruct (dict_get oitems (py "message")) as [msg|]; [|discriminate H].
  destruct msg as [| | | | | | |mitems]; try discriminate H.
  cbn [bind getitem].
  destruct (dict_get mitems (py "content")) as [c'|]; [|discriminate H].
  injection H as ->. reflexivity.
Qed.

(** X11: of the content blocks of a reply [generate_output] reads only the
    first: when the model service was invoked and the usage numbers read, it
    returns the [text] of the first block, whatever blocks follow, and it
    raises [IndexError] when the list of blocks is empty. *)
Theorem generate_output_reads_the_first_block
    (w : Services) (model_id system_prompt messages reply meta : value) :
  invoke_bedrock w model_id messages system_prompt = Ok (reply, meta) ->
  (forall first rest,
      lookup_path [py "output"; py "message"; py "content"] reply
        = Some (VList (first :: rest)) ->
      generate_output w model_id system_prompt messages
        = getitem first (py "text")) /\
  (lookup_path [py "output"; py "message"; py "content"] reply = Some (VList []) ->
   generate_output w model_id system_prompt messages = Raise IndexError).
Proof.
  intros I. unfold generate_output. rewrite I. cbn [bind]. split.
  - intros first rest H. now rewrite (first_text_of_content _ _ H).
  - intros H. now rewrite (first_text_of_content _ _ H).
Qed.

(** ** More on the request handlers *)

(** X13: the two endpoints differ in the template and in nothing else: when
    [substitute] renders the two templates alike, they answer every request
    alike. *)
Theorem endpoints_differ_by_template_only (w : Services) (req : Request) :
  (forall tech_choice_doc,
      substitute w agent_backend_system_prompt_template output_format
        tech_choice_doc
      = substitute w agent_frontend_system_prompt_template output_format
          tech_choice_doc) ->
  backend_agent w req = frontend_agent w req.
Proof.
  intros H.
  assert (E : agent_body w req agent_backend_system_prompt_template
              = agent_body w req agent_frontend_system_prompt_template).
  { unfold agent_body. destruct req as [body|]; [|reflexivity]. cbn [bind].
    destruct (get body (py "page_id") VNone) as [page_id|]; [|reflexivity].
    cbn [bind].
    destruct (get body (py "file_key") VNone) as [file_key|]; [|reflexivity].
    cbn [bind]. rewrite !handle_unfold.
    destruct (retrieve_code_file_from_s3 w file_key); [|reflexivity]. cbn [bind].
    destruct (fetch_page w page_id) as [fetched|]; [|reflexivity]. cbn [bind].
    destruct (unpack2 fetched) as [[title content]|]; [|reflexivity]. cbn [bind].
    destruct (extract_headers_and_content_of w content) as [doc|]; [|reflexivity].
    cbn [bind]. now rewrite H. }
  unfold backend_agent, frontend_agent. now rewrite E.
Qed.

(** X14: how the fetcher, the parser and the extractor compose.  When the
    page is fetched with status 200, the Section Map that goes into the prompt
    is the one of what the parser makes of the string at
    [body.storage.value]; when that path is absent the request does not fail
    for it: the literal "No content found." is parsed as though it were the
    page; and when the parser rejects the string, the endpoint answers with
    the failure response. *)
Theorem guidelines_come_from_the_page
    (w : Services) (req : Request) (t : template)
    page_id code_file response data :
  at_wiki w req page_id code_file ->
  requests_get w (page_url w (CONFLUENCE_URL w) page_id) (EMAIL w)
    (CONFLUENCE_API_TOKEN w) = Ok response ->
  status_code response = 200%Z ->
  json response = Ok data ->
  well_shaped data = true ->
  (forall markup parsed,
      lookup_path [py "body"; py "storage"; py "value"] data = Some (VStr markup) ->
      BeautifulSoup w markup = Ok parsed ->
      at_prompt w req code_file (extract_soup parsed)) /\
  (forall parsed,
      lookup_path [py "body"; py "storage"; py "value"] data = None ->
      BeautifulSoup w (py "No content found.") = Ok parsed ->
      at_prompt w req code_file (extract_soup parsed)) /\
  (forall markup e,
      lookup_path [py "body"; py "storage"; py "value"] data = Some (VStr markup) ->
      BeautifulSoup w markup = Raise e ->
      endpoint w t req = failure).
Proof.
  intros A R S J W.
  assert (F : fetch_page w page_id = page_of_response response).
  { unfold fetch_page, get_confluence_page_content. now rewrite R. }
  rewrite (page_of_success response data S J W) in F.
  assert (X : forall content,
             or_default (lookup_path [py "body"; py "storage"; py "value"] data)
               (VStr (py "No content found.")) = content ->
             at_extraction w req code_file content).
  { intros content E. rewrite E in F.
    eexists page_id, _, _. split; [exact A|]. split; [exact F|reflexivity]. }
  split; [|split].
  - intros markup parsed L P. exists (VStr markup). split.
    + apply X. now rewrite L.
    + unfold extract_headers_and_content_of, extract_headers_and_content.
      now rewrite P.
  - intros parsed L P. exists (VStr (py "No content found.")). split.
    + apply X. now rewrite L.
    + unfold extract_headers_and_content_of, extract_headers_and_content.
      now rewrite P.
  - intros markup e L P. apply (endpoint_failure w t req e).
    apply step_agent_body.
    apply (raise_extraction w req t e code_file (VStr markup)).
    + apply X. now rewrite L.
    + unfold extract_headers_and_content_of, extract_headers_and_content.
      now rewrite P.
Qed.


(** ** Reading the Section Map *)

Lemma str_eqb_true a b : str_eqb a b = true <-> a = b.
Proof. unfold str_eqb. destruct (str_eq_dec a b); split; congruence. Qed.

Lemma dict_get_update_find {V} (es : list (str * V)) : forall d k,
  dict_get (dict_update d es) k =
  match find (fun e => str_eqb (fst e) k) (rev es) with
  | Some e => Some (snd e)
  | None => dict_get d k
  end.
Proof.
  induction es as [|e es IH] using rev_ind; intros d k; [reflexivity|].
  rewrite dict_update_app, rev_app_distr. cbn [rev app find dict_update fold_left].
  unfold str_eqb at 1. destruct (str_eq_dec (fst e) k) as [<-|N].
  - apply dict_get_set_same.
  - rewrite dict_get_set_other by exact N. apply IH.
Qed.

Lemma find_titled k (l : list section) :
  k <> [] ->
  find (fun e => str_eqb (fst e) k)
    (map entry (filter (fun x => nonempty (header_text x)) l))
  = option_map entry (find (fun x => str_eqb (header_text x) k) l).
Proof.
  intros N. induction l as [|x l IH]; [reflexivity|].
  cbn [filter find]. destruct (nonempty (header_text x)) eqn:E.
  - cbn [map find fst entry]. now destruct (str_eqb (header_text x) k).
  - destruct (str_eqb (header_text x) k) eqn:Q; [|exact IH].
    apply str_eqb_true in Q. subst k.
    destruct (header_text x); [congruence|discriminate].
Qed.

(** X15: whatever the document, the value read under a key that is not
    empty is the text of the paragraphs of the last section whose header has
    that trimmed text, and there is no value when no header has it; nothing
    is ever read under the empty key. *)
Theorem section_map_lookup (s : soup) (k : str) :
  dict_get (extract_soup s) k =
  if nonempty k
  then option_map section_text (last_section k (document_sections s))
  else None.
Proof.
  rewrite extract_document, dict_get_update_find.
  destruct (nonempty k) eqn:E.
  - apply nonempty_true in E. unfold last_section.
    rewrite <- map_rev, <- filter_rev, (find_titled _ _ E).
    now destruct (find _ (rev (document_sections s))).
  - destruct k; [|discriminate].
    destruct (find _ _) as [e|] eqn:F; [|reflexivity].
    apply find_some in F as [I Q]. apply str_eqb_true in Q.
    apply in_rev, in_map_iff in I as (x & <- & I).
    apply filter_In in I as [_ I]. simpl in Q. rewrite Q in I. discriminate.
Qed.

Lemma first_occurrences_nil l : first_occurrences l = [] <-> l = [].
Proof.
  split; [|now intros ->].
  assert (G : forall l ks, ks <> [] -> fold_left add_key l ks <> []).
  { clear l. induction l as [|k l IH]; intros ks N; [exact N|].
    simpl. apply IH. unfold add_key. destruct (member k ks); [exact N|].
    now destruct ks. }
  destruct l as [|k l]; [reflexivity|]. unfold first_occurrences. simpl.
  intros H. exfalso. revert H. apply G. discriminate.
Qed.

(** X16: the Section Map is empty exactly when no header element of the
    document has a text. *)
Theorem section_map_is_empty (s : soup) :
  extract_soup s = [] <-> header_texts s = [].
Proof.
  pose proof (keys_of_document s) as K. split.
  - intros E. rewrite E in K. apply first_occurrences_nil. now symmetry.
  - intros E. rewrite E in K. now destruct (extract_soup s).
Qed.

(** ** What a text answer tells *)


(** ** The further properties at work on the examples *)

Example blank_paragraph_leaves_two_spaces :
  extract_soup [elem "h1" "A"; elem "p" "a"; elem "p" "  "; elem "p" "b"]
  = [(py "A", py "a  b")].
Proof. vm_compute. reflexivity. Qed.

Example key_order_example :
  keys (extract_soup
          [elem "h1" "B"; elem "h2" "A"; elem "p" "x"; elem "h3" "B"; elem "p" "y"])
  = [py "B"; py "A"].
Proof. vm_compute. reflexivity. Qed.

Lemma section_map_is_trimmed_witness :
  py "Data" <> [] /\ strip (py "Data") = py "Data" /\
  strip (py "Prefer Python.") = py "Prefer Python.".
Proof.
  apply (section_map_is_trimmed guidelines_page (py "Data") (py "Prefer Python.")).
  vm_compute. right. left. reflexivity.
Defined.

Lemma section_map_across_header_witness :
  extract_soup style_page =
  dict_update (extract_soup [elem "h2" "Style"; elem "p" "Use semicolons."])
    (extract_soup [elem "h2" "Style"; elem "p" "Use 2-space indent."]).
Proof.
  apply (section_map_across_header
           [elem "h2" "Style"; elem "p" "Use semicolons."]
           (elem "h2" "Style") [elem "p" "Use 2-space indent."]).
  vm_compute. reflexivity.
Defined.

Lemma value_is_the_joined_paragraphs_witness :
  exists d,
    extract_headers_and_content (parse_as guidelines_page) guidelines_markup
      = Ok d /\
    dict_get d (py "APIs") = Some (py "Use ESM. Use LLRT.").
Proof.
  apply (value_is_the_joined_paragraphs (parse_as guidelines_page)
           guidelines_markup guidelines_page [elem "p" "Intro"] []
           (elem "h1" "APIs", [elem "p" "Use ESM."; elem "p" " Use LLRT. "])
           [(elem "h2" " Data ", [elem "p" "Prefer Python."])]).
  - reflexivity.
  - vm_compute. reflexivity.
  - vm_compute. reflexivity.
  - vm_compute. reflexivity.
  - vm_compute. discriminate.
  - vm_compute. intros [H|[]]. discriminate H.
  - vm_compute. reflexivity.
Defined.

Lemma fetch_result_shape_witness :
  (status_code demo_missing = 200%Z /\
   exists title content,
     VStr (py "Error: 404 - Not Found") = VTuple [title; content])
  \/
  (status_code demo_missing <> 200%Z /\
   exists rest, VStr (py "Error: 404 - Not Found") = VStr (py "Error: " ++ rest)).
Proof.
  apply (fetch_result_shape demo_missing). vm_compute. reflexivity.
Defined.

Lemma fetch_of_success_raises_witness :
  page_of_response page_with_null_body = Raise AttributeError /\
  exists v, page_of_response demo_page = Ok v.
Proof.
  split.
  - apply (proj1 (proj2 (fetch_of_success_raises page_with_null_body eq_refl))
             (VDict [(py "title", VStr (py "T")); (py "body", VNone)]));
      reflexivity.
  - apply (proj2 (proj2 (proj2 (fetch_of_success_raises demo_page eq_refl)))).
    eexists. split; reflexivity.
Defined.

Lemma reply_without_usage_is_an_error_witness :
  first_text text_only_reply = Ok (VStr (py "first")) /\
  generate_output quiet_services (VStr (py "amazon.nova-micro-v1:0"))
    (format_prompt (py "prompt")) (format_message (py "user") (py "code"))
  = Raise KeyError.
Proof.
  split; [vm_compute; reflexivity|].
  apply (proj1 (reply_without_usage_is_an_error quiet_services
                  (VStr (py "amazon.nova-micro-v1:0")) (format_prompt (py "prompt"))
                  (format_message (py "user") (py "code")) text_only_reply eq_refl));
    reflexivity.
Defined.

Lemma generate_output_reads_the_first_block_witness :
  generate_output (replying two_block_reply) (VStr (py "amazon.nova-micro-v1:0"))
    (format_prompt (py "prompt")) (format_message (py "user") (py "code"))
  = Ok (VStr (py "first")) /\
  generate_output (replying blockless_reply) (VStr (py "amazon.nova-micro-v1:0"))
    (format_prompt (py "prompt")) (format_message (py "user") (py "code"))
  = Raise IndexError.
Proof.
  split.
  - rewrite (proj1 (generate_output_reads_the_first_block
                      (replying two_block_reply)
                      (VStr (py "amazon.nova-micro-v1:0"))
                      (format_prompt (py "prompt"))
                      (format_message (py "user") (py "code"))
                      two_block_reply
                      (VDict [(py "input_tokens", VInt 10);
                              (py "output_tokens", VInt 5);
                              (py "total_tokens", VInt 15);
                              (py "latency", VInt 120)])
                      eq_refl)
               (VDict [(py "text", VStr (py "first"))])
               [VDict [(py "text", VStr (py "second"))]] eq_refl).
    reflexivity.
  - apply (proj2 (generate_output_reads_the_first_block
                    (replying blockless_reply)
                    (VStr (py "amazon.nova-micro-v1:0"))
                    (format_prompt (py "prompt"))
                    (format_message (py "user") (py "code"))
                    blockless_reply
                    (VDict [(py "input_tokens", VInt 10);
                            (py "output_tokens", VInt 5);
                            (py "total_tokens", VInt 15);
                            (py "latency", VInt 120)])
                    eq_refl)).
    reflexivity.
Defined.

Lemma endpoints_differ_by_template_only_witness :
  backend_agent demo_services (demo_request "42")
  = frontend_agent demo_services (demo_request "42").
Proof.
  apply (endpoints_differ_by_template_only demo_services (demo_request "42")).
  reflexivity.
Defined.

Lemma demo_at_wiki page_id :
  at_wiki demo_services (demo_request page_id) (VStr (py page_id))
    (py "console.log('x')").
Proof.
  exists (VStr (py "review.js")). split; [apply demo_request_fields|reflexivity].
Defined.

Lemma guidelines_come_from_the_page_witness :
  at_prompt demo_services (demo_request "42") (py "console.log('x')")
    (extract_soup style_page) /\
  endpoint demo_services agent_frontend_system_prompt_template (demo_request "13")
    = failure.
Proof.
  split.
  - apply (proj1 (guidelines_come_from_the_page demo_services (demo_request "42")
                    agent_backend_system_prompt_template
                    (VStr (py "42")) (py "console.log('x')") demo_page _
                    (demo_at_wiki "42") eq_refl eq_refl eq_refl eq_refl)
             style_markup style_page); reflexivity.
  - apply (proj2 (proj2 (guidelines_come_from_the_page demo_services
                           (demo_request "13")
                           agent_frontend_system_prompt_template
                           (VStr (py "13")) (py "console.log('x')") rejected_page _
                           (demo_at_wiki "13") eq_refl eq_refl eq_refl eq_refl))
             rejected_markup (External (py "ParserRejectedMarkup")));
      reflexivity.
Defined.

